(** * StevesUEHelpers: the input mode detector of UStevesGameSubsystem

    A shallow embedding of [UStevesGameSubsystem::FInputModeDetector]
    (StevesGameSubsystem.h / StevesGameSubsystem.cpp), of the foreground
    check that drives its [bIgnoreEvents] flag and of the device
    preference chosen by the input image lookups.

    Conventions of the embedding.
    - A C++ [int] player index is a [Z].
    - [TArray<EInputMode>] is a [list EInputMode]; the engine's range
      check on [operator[]] and the overflow of [PlayerIndex + 1] are
      failures, so every operation that writes returns an [option].
    - The delegates [OnInputModeChanged] and [OnButtonInputModeChanged]
      are a trace: the list of notifications fired, in firing order.
    - A [float] that the code only compares or copies is a rational.
      Where the code computes with floats (the difference of two pointer
      positions), the numbers are IEEE binary32 values with the
      operations of the Standard Library's [SpecFloat]. *)

From Stdlib Require Import ZArith QArith Qabs String Lia SpecFloat.
From stdpp Require Import base option list strings gmap.

Local Open Scope Z_scope.

(** ** Engine types used by the detector *)

(** [EInputMode] is declared in StevesHelperCommon.h; its values are the
    four device classes.  Nothing below depends on the order in which
    they are listed here. *)
Inductive EInputMode : Set := Unknown | Mouse | Keyboard | Gamepad.

#[global] Instance EInputMode_eq_dec : EqDecision EInputMode.
Proof. solve_decision. Defined.

(** An [FKey] as the detector sees it: its name and the two key-detail
    flags the code queries.  [operator==] on [FKey] compares names. *)
Record FKey : Set := mkKey {
  KeyName : string;
  IsGamepadKey : bool;
  IsMouseButton : bool
}.

Definition FKey_neq (a b : FKey) : bool :=
  negb (String.eqb (KeyName a) (KeyName b)).

Module EKeys.
Definition Gamepad_LeftStick_Up := mkKey "Gamepad_LeftStick_Up" true false.
Definition Gamepad_LeftStick_Down := mkKey "Gamepad_LeftStick_Down" true false.
Definition Gamepad_LeftStick_Left := mkKey "Gamepad_LeftStick_Left" true false.
Definition Gamepad_LeftStick_Right := mkKey "Gamepad_LeftStick_Right" true false.
Definition Gamepad_RightStick_Up := mkKey "Gamepad_RightStick_Up" true false.
Definition Gamepad_RightStick_Down := mkKey "Gamepad_RightStick_Down" true false.
Definition Gamepad_RightStick_Left := mkKey "Gamepad_RightStick_Left" true false.
Definition Gamepad_RightStick_Right := mkKey "Gamepad_RightStick_Right" true false.
(* Keys used in examples only. *)
Definition Gamepad_FaceButton_Bottom := mkKey "Gamepad_FaceButton_Bottom" true false.
Definition LeftMouseButton := mkKey "LeftMouseButton" false true.
Definition SpaceBar := mkKey "SpaceBar" false false.
End EKeys.

Record FVector2D : Set := mkVec { X : Q; Y : Q }.

(** A [float] the code computes with is an IEEE binary32 number: 24 bits
    of precision, exponents below 128. *)
Definition float32_sub : spec_float -> spec_float -> spec_float := SFsub 24 128.

(** The binary32 number nearest to [m * 2^e]. *)
Definition Float32 (m e : Z) : spec_float := binary_normalize 24 128 m e false.

(** [a > b] on floats; false when either side is not a number. *)
Definition float32_gt (a b : spec_float) : bool := SFltb b a.

(** The [FVector2D] of a pointer event, a screen position: the handler
    subtracts two of them, so its components are floats. *)
Record FScreenPosition : Set := mkPos { PosX : spec_float; PosY : spec_float }.

(** [operator-] of two positions: the float difference of each
    component. *)
Definition FScreenPosition_sub (a b : FScreenPosition) : FScreenPosition :=
  mkPos (float32_sub (PosX a) (PosX b)) (float32_sub (PosY a) (PosY b)).

(** The position with the whole-number coordinates [x] and [y]. *)
Definition PositionOfZ (x y : Z) : FScreenPosition :=
  mkPos (Float32 x 0) (Float32 y 0).

(** [a > b] on floats. *)
Definition Qgtb (a b : Q) : bool := negb (Qle_bool a b).

(** ** TArray *)

Module TArray.
Section Ops.
Context {A : Type}.

Definition Num (a : list A) : Z := Z.of_nat (length a).

(** [Init(Element, Number)]. *)
Definition Init (x : A) (n : Z) : list A := replicate (Z.to_nat n) x.

(** [SetNum(NewNum)]: a longer array gets value-initialised elements
    (all bits zero for an enum), a shorter one is truncated. *)
Definition SetNum (zero : A) (NewNum : Z) (a : list A) : list A :=
  if Num a <? NewNum
  then a ++ replicate (Z.to_nat (NewNum - Num a)) zero
  else take (Z.to_nat NewNum) a.

(** [a[Index] = x], with the range check of [operator[]]. *)
Definition Set_ (Index : Z) (x : A) (a : list A) : option (list A) :=
  if (0 <=? Index) && (Index <? Num a)
  then Some (<[Z.to_nat Index := x]> a)
  else None.

End Ops.
End TArray.

Definition INT_MAX : Z := 2147483647.

(** ** FInputModeDetector *)

Record Detector : Set := mkDetector {
  LastInputModeByPlayer : list EInputMode;
  LastButtonPressByPlayer : list EInputMode;
  bIgnoreEvents : bool
}.

Inductive Notification : Set :=
| InputModeChanged (PlayerIndex : Z) (NewMode : EInputMode)
| ButtonInputModeChanged (PlayerIndex : Z) (NewMode : EInputMode).

#[global] Instance Notification_eq_dec : EqDecision Notification.
Proof. solve_decision. Defined.

Definition DefaultInputMode : EInputMode := Mouse.
Definition DefaultButtonInputMode : EInputMode := Keyboard.
(** [const float MouseMoveThreshold = 1]. *)
Definition MouseMoveThreshold : spec_float := Float32 1 0.
(** [const float GamepadAxisThreshold = 0.2]: the binary32 value nearest
    to 0.2, which is 13421773 / 2^26. *)
Definition GamepadAxisThreshold : Q := 13421773 # 67108864.

Definition ShouldProcessInputEvents (d : Detector) : bool :=
  negb (bIgnoreEvents d).

(** The constructor. *)
Definition FInputModeDetector : Detector :=
  mkDetector (TArray.Init DefaultInputMode 4)
             (TArray.Init DefaultButtonInputMode 4)
             false.

Definition GetLastInputMode (d : Detector) (PlayerIndex : Z) : EInputMode :=
  if (0 <=? PlayerIndex) && (PlayerIndex <? TArray.Num (LastInputModeByPlayer d))
  then default DefaultInputMode (LastInputModeByPlayer d !! Z.to_nat PlayerIndex)
  else DefaultInputMode.

Definition GetLastButtonInputMode (d : Detector) (PlayerIndex : Z) : EInputMode :=
  if (0 <=? PlayerIndex) && (PlayerIndex <? TArray.Num (LastButtonPressByPlayer d))
  then default DefaultButtonInputMode (LastButtonPressByPlayer d !! Z.to_nat PlayerIndex)
  else DefaultButtonInputMode.

Definition IsAGamepadButton (Key : FKey) : bool :=
  IsGamepadKey Key &&
  FKey_neq Key EKeys.Gamepad_LeftStick_Up &&
  FKey_neq Key EKeys.Gamepad_LeftStick_Down &&
  FKey_neq Key EKeys.Gamepad_LeftStick_Left &&
  FKey_neq Key EKeys.Gamepad_LeftStick_Right &&
  FKey_neq Key EKeys.Gamepad_RightStick_Up &&
  FKey_neq Key EKeys.Gamepad_RightStick_Down &&
  FKey_neq Key EKeys.Gamepad_RightStick_Left &&
  FKey_neq Key EKeys.Gamepad_RightStick_Right.

(** The eight stick identifiers [IsAGamepadButton] leaves out. *)
Definition StickKeyNames : list string :=
  [ "Gamepad_LeftStick_Up"; "Gamepad_LeftStick_Down";
    "Gamepad_LeftStick_Left"; "Gamepad_LeftStick_Right";
    "Gamepad_RightStick_Up"; "Gamepad_RightStick_Down";
    "Gamepad_RightStick_Left"; "Gamepad_RightStick_Right" ]%string.

Section Detector.
(** The enumerator of [EInputMode] whose underlying value is 0: what
    [TArray::SetNum] puts in the elements it adds.  Which one it is
    depends on the declaration of the enum in StevesHelperCommon.h, so
    the detector is embedded for each of them. *)
Variable ZeroMode : EInputMode.

(** The two statements
    [if (PlayerIndex >= A.Num()) A.SetNum(PlayerIndex + 1);]
    [A[PlayerIndex] = NewMode;] *)
Definition GrowAndStore (PlayerIndex : Z) (NewMode : EInputMode)
    (a : list EInputMode) : option (list EInputMode) :=
  a' ← (if TArray.Num a <=? PlayerIndex
        then (if INT_MAX <=? PlayerIndex then None
              else Some (TArray.SetNum ZeroMode (PlayerIndex + 1) a))
        else Some a);
  TArray.Set_ PlayerIndex NewMode a'.

Definition SetMode (d : Detector) (PlayerIndex : Z) (NewMode : EInputMode)
    (bIsButton : bool) : option (Detector * list Notification) :=
  let bButtonChanged :=
    bIsButton && bool_decide (NewMode ≠ Unknown)
              && bool_decide (NewMode ≠ GetLastButtonInputMode d PlayerIndex) in
  buttons ← (if bButtonChanged
             then GrowAndStore PlayerIndex NewMode (LastButtonPressByPlayer d)
             else Some (LastButtonPressByPlayer d));
  let d1 := mkDetector (LastInputModeByPlayer d) buttons (bIgnoreEvents d) in
  (* Whether it's a button or not it can affect the main input mode *)
  let bMainChanged :=
    bool_decide (NewMode ≠ Unknown)
    && bool_decide (NewMode ≠ GetLastInputMode d1 PlayerIndex) in
  mains ← (if bMainChanged
           then GrowAndStore PlayerIndex NewMode (LastInputModeByPlayer d1)
           else Some (LastInputModeByPlayer d1));
  let d2 := mkDetector mains buttons (bIgnoreEvents d) in
  (* Raise events at the end once all state has changed *)
  Some (d2,
        (if bButtonChanged then [ButtonInputModeChanged PlayerIndex NewMode] else [])
        ++ (if bMainChanged then [InputModeChanged PlayerIndex NewMode] else [])).

Definition ProcessKeyOrButton (d : Detector) (PlayerIndex : Z) (Key : FKey)
    : option (Detector * list Notification) :=
  if IsGamepadKey Key then
    SetMode d PlayerIndex Gamepad (IsAGamepadButton Key)
  else if IsMouseButton Key then
    SetMode d PlayerIndex Mouse true
  else
    SetMode d PlayerIndex Keyboard true.

(** The five handlers.  Each returns [false] (the event is never
    consumed) in the source; the embedding keeps their effect. *)

Definition HandleKeyDownEvent (d : Detector) (UserIndex : Z) (Key : FKey)
    : option (Detector * list Notification) :=
  if ShouldProcessInputEvents d
  then ProcessKeyOrButton d UserIndex Key
  else Some (d, []).

Definition HandleAnalogInputEvent (d : Detector) (UserIndex : Z) (AnalogValue : Q)
    : option (Detector * list Notification) :=
  if ShouldProcessInputEvents d then
    if Qgtb AnalogValue GamepadAxisThreshold
    then SetMode d UserIndex Gamepad false
    else Some (d, [])
  else Some (d, []).

Definition HandleMouseMoveEvent (d : Detector) (UserIndex : Z)
    (ScreenSpacePosition LastScreenSpacePosition : FScreenPosition)
    : option (Detector * list Notification) :=
  if ShouldProcessInputEvents d then
    let Dist := FScreenPosition_sub ScreenSpacePosition LastScreenSpacePosition in
    if float32_gt (SFabs (PosX Dist)) MouseMoveThreshold
       || float32_gt (SFabs (PosY Dist)) MouseMoveThreshold
    then SetMode d UserIndex Mouse false
    else Some (d, [])
  else Some (d, []).

Definition HandleMouseButtonDownEvent (d : Detector) (UserIndex : Z)
    : option (Detector * list Notification) :=
  if ShouldProcessInputEvents d
  then SetMode d UserIndex Mouse true
  else Some (d, []).

Definition HandleMouseWheelOrGestureEvent (d : Detector) (UserIndex : Z)
    : option (Detector * list Notification) :=
  if ShouldProcessInputEvents d
  then SetMode d UserIndex Mouse false
  else Some (d, []).
End Detector.

(** ** The event stream *)

(** What the input pre-processor interface hands to the detector. *)
Inductive InputEvent : Set :=
| KeyDownEvent (UserIndex : Z) (Key : FKey)
| AnalogInputEvent (UserIndex : Z) (AnalogValue : Q)
| MouseMoveEvent (UserIndex : Z)
    (ScreenSpacePosition LastScreenSpacePosition : FScreenPosition)
| MouseButtonDownEvent (UserIndex : Z)
| MouseWheelOrGestureEvent (UserIndex : Z).

Definition EventUserIndex (e : InputEvent) : Z :=
  match e with
  | KeyDownEvent i _ | AnalogInputEvent i _ | MouseMoveEvent i _ _
  | MouseButtonDownEvent i | MouseWheelOrGestureEvent i => i
  end.

Definition Process (ZeroMode : EInputMode) (d : Detector) (e : InputEvent)
    : option (Detector * list Notification) :=
  match e with
  | KeyDownEvent i k => HandleKeyDownEvent ZeroMode d i k
  | AnalogInputEvent i v => HandleAnalogInputEvent ZeroMode d i v
  | MouseMoveEvent i p q => HandleMouseMoveEvent ZeroMode d i p q
  | MouseButtonDownEvent i => HandleMouseButtonDownEvent ZeroMode d i
  | MouseWheelOrGestureEvent i => HandleMouseWheelOrGestureEvent ZeroMode d i
  end.

(** Events delivered one after the other; the trace is the concatenation
    of what each one fired. *)
Fixpoint Run (ZeroMode : EInputMode) (d : Detector) (es : list InputEvent)
    : option (Detector * list Notification) :=
  match es with
  | [] => Some (d, [])
  | e :: es' =>
      r ← Process ZeroMode d e;
      r' ← Run ZeroMode r.1 es';
      Some (r'.1, r.2 ++ r'.2)
  end.

(** The four candidates for the enumerator of value 0. *)
Definition AllModes : list EInputMode := [Unknown; Mouse; Keyboard; Gamepad].

(** Modelled from the spec: the declaration of [EInputMode] is in
    StevesHelperCommon.h.  The spec gives the type as the enumeration
    {Unknown, Mouse, Keyboard, Gamepad}; with the enumerators numbered in
    the order listed, the one of value 0 is [Unknown]. *)
Definition SpecZeroMode : EInputMode := Unknown.

(** A player index the arrays can hold. *)
Definition ValidSlot (i : Z) : Prop := 0 <= i < INT_MAX.

Definition IsMainNotification (n : Notification) : bool :=
  match n with InputModeChanged _ _ => true | _ => false end.

Definition IsButtonNotification (n : Notification) : bool :=
  match n with ButtonInputModeChanged _ _ => true | _ => false end.

(** ** The foreground check of the subsystem *)

Record Subsystem : Set := mkSubsystem {
  bIsForeground : bool;
  InputDetector : Detector
}.

Definition SetIgnoreEvents (d : Detector) (b : bool) : Detector :=
  mkDetector (LastInputModeByPlayer d) (LastButtonPressByPlayer d) b.

(** [Viewport] is [Some b] when [GEngine], its game viewport and the
    viewport are all valid and [IsForegroundWindow()] answers [b], and
    [None] otherwise.  The second component is the list of
    [OnWindowForegroundChanged] broadcasts. *)
Definition CheckForeground (s : Subsystem) (Viewport : option bool)
    : Subsystem * list bool :=
  let bNewForeground :=
    match Viewport with Some b => b | None => bIsForeground s end in
  if bool_decide (bNewForeground ≠ bIsForeground s) then
    (mkSubsystem bNewForeground
                 (SetIgnoreEvents (InputDetector s) (negb bNewForeground)),
     [bNewForeground])
  else (s, []).

Definition GetLastInputModeUsed (s : Subsystem) (PlayerIndex : Z) : EInputMode :=
  GetLastInputMode (InputDetector s) PlayerIndex.

Definition GetLastInputButtonPressed (s : Subsystem) (PlayerIndex : Z) : EInputMode :=
  GetLastButtonInputMode (InputDetector s) PlayerIndex.

(** ** Device preference of the input image lookups *)

(** The enumerators of [EInputImageDevicePreference] that the subsystem
    names (the declaration itself is in StevesHelperCommon.h). *)
Inductive EInputImageDevicePreference : Set :=
| Auto
| Gamepad_Keyboard_Mouse
| Gamepad_Mouse_Keyboard
| Gamepad_Keyboard_Mouse_Button.

#[global] Instance EInputImageDevicePreference_eq_dec :
  EqDecision EInputImageDevicePreference.
Proof. solve_decision. Defined.

Record FInputActionKeyMapping : Set := mkActionMapping {
  ActionName : string;
  ActionKey : FKey
}.

Record FInputAxisKeyMapping : Set := mkAxisMapping {
  AxisName : string;
  AxisKey : FKey
}.

(** [if (DevicePreference == Auto) DevicePreference = ...] of the action
    lookup, respectively of the axis lookup. *)
Definition ActionDevicePreference (DevicePreference : EInputImageDevicePreference)
    : EInputImageDevicePreference :=
  if bool_decide (DevicePreference = Auto)
  then Gamepad_Keyboard_Mouse_Button else DevicePreference.

Definition AxisDevicePreference (DevicePreference : EInputImageDevicePreference)
    : EInputImageDevicePreference :=
  if bool_decide (DevicePreference = Auto)
  then Gamepad_Mouse_Keyboard else DevicePreference.

Section InputImages.
(** The collaborators of the lookups: the input settings store, the
    instances of the resolver template and the sprite lookup by key. *)
Context {UPaperSprite UUiTheme : Type}.
Variable GetActionMappingByName : string -> list FInputActionKeyMapping.
Variable GetAxisMappingByName : string -> list FInputAxisKeyMapping.
Variable PreferedActionMapping :
  list FInputActionKeyMapping -> string -> EInputImageDevicePreference ->
  EInputMode -> EInputMode -> option FInputActionKeyMapping.
Variable PreferedAxisMapping :
  list FInputAxisKeyMapping -> string -> EInputImageDevicePreference ->
  EInputMode -> EInputMode -> option FInputAxisKeyMapping.
Variable GetInputImageSpriteFromKey : FKey -> Z -> UUiTheme -> option UPaperSprite.

Definition GetInputImageSpriteFromAction (s : Subsystem) (Name : string)
    (DevicePreference : EInputImageDevicePreference) (PlayerIdx : Z)
    (Theme : UUiTheme) : option UPaperSprite :=
  let GS_TempActionMap := GetActionMappingByName Name in
  let DevicePreference := ActionDevicePreference DevicePreference in
  let LastInput := GetLastInputModeUsed s PlayerIdx in
  let LastButtonInput := GetLastInputButtonPressed s PlayerIdx in
  match PreferedActionMapping GS_TempActionMap Name DevicePreference
                              LastInput LastButtonInput with
  | Some Preferred => GetInputImageSpriteFromKey (ActionKey Preferred) PlayerIdx Theme
  | None => None
  end.

Definition GetInputImageSpriteFromAxis (s : Subsystem) (Name : string)
    (DevicePreference : EInputImageDevicePreference) (PlayerIdx : Z)
    (Theme : UUiTheme) : option UPaperSprite :=
  let GS_TempAxisMap := GetAxisMappingByName Name in
  let DevicePreference := AxisDevicePreference DevicePreference in
  let LastInput := GetLastInputModeUsed s PlayerIdx in
  let LastButtonInput := GetLastInputButtonPressed s PlayerIdx in
  match PreferedAxisMapping GS_TempAxisMap Name DevicePreference
                            LastInput LastButtonInput with
  | Some Preferred => GetInputImageSpriteFromKey (AxisKey Preferred) PlayerIdx Theme
  | None => None
  end.
End InputImages.

(** ** Read-outs used to state the properties *)

(** The common shape of the two getters: the stored element inside the
    bounds, the given default outside. *)
Definition ReadSlot (dflt : EInputMode) (a : list EInputMode) (i : Z) : EInputMode :=
  if (0 <=? i) && (i <? TArray.Num a)
  then default dflt (a !! Z.to_nat i)
  else dflt.

(** The two tests of [SetMode], on the detector it is entered with. *)
Definition ButtonChanges (d : Detector) (i : Z) (m : EInputMode) (b : bool) : bool :=
  b && bool_decide (m ≠ Unknown) && bool_decide (m ≠ GetLastButtonInputMode d i).

Definition MainChanges (d : Detector) (i : Z) (m : EInputMode) : bool :=
  bool_decide (m ≠ Unknown) && bool_decide (m ≠ GetLastInputMode d i).

(** No stored element is [Unknown]. *)
Definition NoUnknown (d : Detector) : Prop :=
  Forall (λ m, m ≠ Unknown) (LastInputModeByPlayer d) ∧
  Forall (λ m, m ≠ Unknown) (LastButtonPressByPlayer d).

(** The test of [HandleMouseMoveEvent] on the move from [q] to [p]: it is
    made on the float difference of the two positions. *)
Definition AboveMoveThreshold (p q : FScreenPosition) : bool :=
  float32_gt (SFabs (PosX (FScreenPosition_sub p q))) MouseMoveThreshold
  || float32_gt (SFabs (PosY (FScreenPosition_sub p q))) MouseMoveThreshold.

(** ** Reading traces and events *)

(** The mode carried by a main notification for player [i]. *)
Definition MainModeOf (i : Z) (n : Notification) : option EInputMode :=
  match n with
  | InputModeChanged j m => if bool_decide (j = i) then Some m else None
  | ButtonInputModeChanged _ _ => None
  end.

Definition ButtonModeOf (i : Z) (n : Notification) : option EInputMode :=
  match n with
  | ButtonInputModeChanged j m => if bool_decide (j = i) then Some m else None
  | InputModeChanged _ _ => None
  end.

(** The modes a trace announced for player [i], oldest first. *)
Definition MainModesFor (i : Z) (ns : list Notification) : list EInputMode :=
  omap (MainModeOf i) ns.

Definition ButtonModesFor (i : Z) (ns : list Notification) : list EInputMode :=
  omap (ButtonModeOf i) ns.

Definition NotificationIndex (n : Notification) : Z :=
  match n with InputModeChanged i _ | ButtonInputModeChanged i _ => i end.

Definition NotificationMode (n : Notification) : EInputMode :=
  match n with InputModeChanged _ m | ButtonInputModeChanged _ m => m end.

(** No element is followed by an equal one. *)
Fixpoint NoAdjacentRepeat {A : Type} (l : list A) : Prop :=
  match l with
  | x :: t => match t with y :: _ => x ≠ y | [] => True end ∧ NoAdjacentRepeat t
  | [] => True
  end.

(** The [SetMode] call a handler makes for an event it does not ignore:
    the mode and the button flag, or nothing when the handler's own
    threshold test fails. *)
Definition EventMode (e : InputEvent) : option (EInputMode * bool) :=
  match e with
  | KeyDownEvent _ k =>
      if IsGamepadKey k then Some (Gamepad, IsAGamepadButton k)
      else if IsMouseButton k then Some (Mouse, true)
      else Some (Keyboard, true)
  | AnalogInputEvent _ v =>
      if Qgtb v GamepadAxisThreshold then Some (Gamepad, false) else None
  | MouseMoveEvent _ p q =>
      if AboveMoveThreshold p q then Some (Mouse, false) else None
  | MouseButtonDownEvent _ => Some (Mouse, true)
  | MouseWheelOrGestureEvent _ => Some (Mouse, false)
  end.

(** The main mode event [e] asks for on behalf of player [i], and the
    button mode it asks for. *)
Definition MainModeFor (i : Z) (e : InputEvent) : option EInputMode :=
  if bool_decide (EventUserIndex e = i) then fst <$> EventMode e else None.

Definition ButtonModeFor (i : Z) (e : InputEvent) : option EInputMode :=
  if bool_decide (EventUserIndex e = i) then
    match EventMode e with
    | Some (m, true) => Some m
    | _ => None
    end
  else None.

(** ** The timer and the input handlers on one subsystem *)

(** The subsystem when [Initialize] returns: [bIsForeground] has its
    member initialiser and [CreateInputDetector] has made the detector. *)
Definition InitialSubsystem : Subsystem := mkSubsystem true FInputModeDetector.

(** The detector ignores events exactly when the subsystem holds that the
    window is not in the foreground. *)
Definition FocusConsistent (s : Subsystem) : Prop :=
  bIgnoreEvents (InputDetector s) = negb (bIsForeground s).

(** Successive firings of the foreground timer, each with what the
    viewport answers; the broadcasts are collected in order. *)
Fixpoint Polls (s : Subsystem) (obs : list (option bool)) : Subsystem * list bool :=
  match obs with
  | [] => (s, [])
  | v :: rest =>
      let r := CheckForeground s v in
      let r' := Polls r.1 rest in
      (r'.1, r.2 ++ r'.2)
  end.

(** What happens to a running subsystem: the timer fires, or Slate hands
    an input event to the detector. *)
Inductive SystemStep : Set :=
| TimerFires (Viewport : option bool)
| InputArrives (e : InputEvent).

Definition StepSystem (ZeroMode : EInputMode) (s : Subsystem) (st : SystemStep)
    : option (Subsystem * list Notification * list bool) :=
  match st with
  | TimerFires v =>
      let r := CheckForeground s v in Some (r.1, [], r.2)
  | InputArrives e =>
      r ← Process ZeroMode (InputDetector s) e;
      Some (mkSubsystem (bIsForeground s) r.1, r.2, [])
  end.

Fixpoint RunSystem (ZeroMode : EInputMode) (s : Subsystem) (sts : list SystemStep)
    : option (Subsystem * list Notification * list bool) :=
  match sts with
  | [] => Some (s, [], [])
  | st :: sts' =>
      r ← StepSystem ZeroMode s st;
      r' ← RunSystem ZeroMode r.1.1 sts';
      Some (r'.1.1, r.1.2 ++ r'.1.2, r.2 ++ r'.2)
  end.

(** The focus state the subsystem holds after the steps, from [fg]. *)
Fixpoint FocusAfter (fg : bool) (sts : list SystemStep) : bool :=
  match sts with
  | [] => fg
  | TimerFires v :: sts' => FocusAfter (default fg v) sts'
  | InputArrives _ :: sts' => FocusAfter fg sts'
  end.

(** The focus states the timer observed that differ from the one held
    just before. *)
Fixpoint FocusChanges (fg : bool) (sts : list SystemStep) : list bool :=
  match sts with
  | [] => []
  | TimerFires v :: sts' =>
      (if bool_decide (default fg v ≠ fg) then [default fg v] else [])
      ++ FocusChanges (default fg v) sts'
  | InputArrives _ :: sts' => FocusChanges fg sts'
  end.

(** The input events that arrive while the focus state held is [true]. *)
Fixpoint ForegroundEvents (fg : bool) (sts : list SystemStep) : list InputEvent :=
  match sts with
  | [] => []
  | TimerFires v :: sts' => ForegroundEvents (default fg v) sts'
  | InputArrives e :: sts' =>
      if fg then e :: ForegroundEvents fg sts' else ForegroundEvents fg sts'
  end.

(** ** Texture render target pools *)

Section Pools.
(** The pool class lives in StevesTextureRenderTargetPool.h.  The
    subsystem uses two things of it: the constructor, called with the
    pool's name (and the owner), and [GetName].  [FName]s are compared
    with [==]. *)
Context {FName Pool : Type} `{EqDecision FName}.
Variable GetName : Pool → FName.

(** The loop [for (auto Tex : TextureRenderTargetPools)]. *)
Fixpoint FindPool (Name : FName) (pools : list Pool) : option Pool :=
  match pools with
  | [] => None
  | Tex :: rest =>
      if bool_decide (GetName Tex = Name) then Some Tex else FindPool Name rest
  end.

(** [NewPool] is the object [MakeShared] allocates if the call gets that
    far.  Returns the pool handed back ([None] for a null pointer) and
    the array [TextureRenderTargetPools] afterwards. *)
Definition GetTextureRenderTargetPool (TextureRenderTargetPools : list Pool)
    (Name : FName) (bAutoCreate : bool) (NewPool : Pool)
    : option Pool * list Pool :=
  match FindPool Name TextureRenderTargetPools with
  | Some Tex => (Some Tex, TextureRenderTargetPools)
  | None =>
      if bAutoCreate then (Some NewPool, TextureRenderTargetPools ++ [NewPool])
      else (None, TextureRenderTargetPools)
  end.
End Pools.

(** ** Brushes *)

(** A [UObject*]: [None] is the null pointer. *)
Definition UObjectPtr : Set := option Z.

Record FSlateBrush : Set := mkBrush {
  ResourceObject : UObjectPtr;
  ImageSize : FVector2D
}.

(** [TScriptInterface<ISlateTextureAtlasInterface>]: the object pointer
    and the interface pointer; through the latter, the source dimensions
    of [GetSlateAtlasData()]. *)
Record FAtlasRegion : Set := mkAtlasRegion {
  AtlasObject : UObjectPtr;
  AtlasSourceDimensions : option FVector2D
}.

Definition SetBrushFromAtlas (Brush : FSlateBrush) (AtlasRegion : FAtlasRegion)
    (bMatchSize : bool) : FSlateBrush :=
  if bool_decide (ResourceObject Brush ≠ AtlasObject AtlasRegion) then
    let Brush1 := mkBrush (AtlasObject AtlasRegion) (ImageSize Brush) in
    if bMatchSize then
      match AtlasSourceDimensions AtlasRegion with
      | Some Dimensions => mkBrush (ResourceObject Brush1) Dimensions
      | None => mkBrush (ResourceObject Brush1) (mkVec 0 0)
      end
    else Brush1
  else Brush.

(** ** Relaying the detector's notifications *)

(** The game viewport client as [OnInputDetectorModeChanged] sees it:
    whether the cast to [UStevesGameViewportClientBase] succeeds, and the
    viewport size. *)
Record FViewportClient : Set := mkViewportClient {
  bIsStevesViewportClient : bool;
  ViewportSize : FVector2D
}.

(** What the relay does to the world around it, in order. *)
Inductive RelayAction : Set :=
| LogViewportClientWarning
| SetMouseLocation (X Y : Z)
| SetSuppressMouseCursor (b : bool)
| BroadcastInputModeChanged (PlayerIndex : Z) (NewMode : EInputMode)
| BroadcastButtonInputModeChanged (PlayerIndex : Z) (NewMode : EInputMode).

(** Conversion of a [float] to [int]: towards zero. *)
Definition FloatToInt (q : Q) : Z := Z.quot (Qnum q) (Z.pos (Qden q)).

(** [VC] is the game viewport client ([None] when there is none); the
    result is [bCheckedViewportClient] afterwards and the actions taken.
    The first local player controller is taken to exist. *)
Definition OnInputDetectorModeChanged (VC : option FViewportClient)
    (bCheckedViewportClient : bool) (PlayerIndex : Z) (NewMode : EInputMode)
    : bool * list RelayAction :=
  let Warning :=
    if bCheckedViewportClient then []
    else match VC with
         | Some vc =>
             if bIsStevesViewportClient vc then [] else [LogViewportClientWarning]
         | None => [LogViewportClientWarning]
         end in
  let Cursor :=
    match VC with
    | Some vc =>
        if bool_decide (NewMode = Gamepad) then
          SetMouseLocation (FloatToInt (X (ViewportSize vc) - 1)%Q)
                           (FloatToInt (Y (ViewportSize vc) - 1)%Q)
          :: (if bIsStevesViewportClient vc then [SetSuppressMouseCursor true] else [])
        else if bool_decide (NewMode = Mouse) then
          (if bIsStevesViewportClient vc then [SetSuppressMouseCursor false] else [])
        else []
    | None => []
    end in
  (true, Warning ++ Cursor ++ [BroadcastInputModeChanged PlayerIndex NewMode]).

Definition OnButtonInputDetectorModeChanged (PlayerIndex : Z) (NewMode : EInputMode)
    : list RelayAction :=
  [BroadcastButtonInputModeChanged PlayerIndex NewMode].

(** The two delegates of the detector are bound to the two functions
    above ([CreateInputDetector]): a trace of the detector, relayed. *)
Fixpoint Relay (VC : option FViewportClient) (bCheckedViewportClient : bool)
    (ns : list Notification) : bool * list RelayAction :=
  match ns with
  | [] => (bCheckedViewportClient, [])
  | InputModeChanged i m :: rest =>
      let r := OnInputDetectorModeChanged VC bCheckedViewportClient i m in
      let r' := Relay VC r.1 rest in
      (r'.1, r.2 ++ r'.2)
  | ButtonInputModeChanged i m :: rest =>
      let r' := Relay VC bCheckedViewportClient rest in
      (r'.1, OnButtonInputDetectorModeChanged i m ++ r'.2)
  end.

Definition BroadcastOf (a : RelayAction) : option Notification :=
  match a with
  | BroadcastInputModeChanged i m => Some (InputModeChanged i m)
  | BroadcastButtonInputModeChanged i m => Some (ButtonInputModeChanged i m)
  | _ => None
  end.

Definition SuppressionOf (a : RelayAction) : option bool :=
  match a with SetSuppressMouseCursor b => Some b | _ => None end.

Definition IsWarning (a : RelayAction) : bool :=
  match a with LogViewportClientWarning => true | _ => false end.

(** Whether the cursor is suppressed after the actions, given whether it
    was before: the argument of the last [SetSuppressMouseCursor]. *)
Definition CursorSuppressed (before : bool) (acts : list RelayAction) : bool :=
  default before (last (omap SuppressionOf acts)).

Definition IsStevesClient (VC : option FViewportClient) : bool :=
  match VC with Some vc => bIsStevesViewportClient vc | None => false end.

(** What a main notification of mode [m] does to the cursor with a
    Steves viewport client: suppress it for Gamepad, show it for Mouse,
    leave it for any other mode. *)
Definition SuppressionForMode (m : EInputMode) : option bool :=
  if bool_decide (m = Gamepad) then Some true
  else if bool_decide (m = Mouse) then Some false
  else None.

(** ** Images for keys *)

(** A row of the image tables. *)
Record FKeySprite : Set := mkKeySprite { Sprite : UObjectPtr }.

(** A theme, by its two image tables.  A table is given by its rows,
    which are named as the keys are; the table assets are taken to
    load. *)
Record UUiTheme : Type := mkUiTheme {
  KeyboardMouseImages : gmap string FKeySprite;
  XboxControllerImages : gmap string FKeySprite
}.

Definition GetImageSpriteFromTable (InKey : FKey) (Table : gmap string FKeySprite)
    : UObjectPtr :=
  match Table !! KeyName InKey with
  | Some SpriteRow => Sprite SpriteRow
  | None => None
  end.

Definition GetGamepadImages (PlayerIndex : Z) (Theme : UUiTheme)
    : gmap string FKeySprite :=
  XboxControllerImages Theme.

(** [DefaultUiTheme] is the member of the subsystem; a theme pointer is
    [None] when it is null or not valid. *)
Definition GetInputImageSpriteFromKey (DefaultUiTheme : option UUiTheme)
    (InKey : FKey) (PlayerIndex : Z) (Theme : option UUiTheme) : UObjectPtr :=
  let Theme := match Theme with Some t => Some t | None => DefaultUiTheme end in
  match Theme with
  | Some t =>
      if IsGamepadKey InKey
      then GetImageSpriteFromTable InKey (GetGamepadImages PlayerIndex t)
      else GetImageSpriteFromTable InKey (KeyboardMouseImages t)
  | None => None
  end.

Module EInputBindingType.
Inductive t : Set := Action | Axis | Key.
End EInputBindingType.

Section InputImageSprite.
Variable GetActionMappingByName : string -> list FInputActionKeyMapping.
Variable GetAxisMappingByName : string -> list FInputAxisKeyMapping.
Variable PreferedActionMapping :
  list FInputActionKeyMapping -> string -> EInputImageDevicePreference ->
  EInputMode -> EInputMode -> option FInputActionKeyMapping.
Variable PreferedAxisMapping :
  list FInputAxisKeyMapping -> string -> EInputImageDevicePreference ->
  EInputMode -> EInputMode -> option FInputAxisKeyMapping.
Variable DefaultUiTheme : option UUiTheme.

Definition GetInputImageSprite (s : Subsystem) (BindingType : EInputBindingType.t)
    (ActionOrAxis : string) (Key : FKey)
    (DevicePreference : EInputImageDevicePreference) (PlayerIdx : Z)
    (Theme : option UUiTheme) : UObjectPtr :=
  match BindingType with
  | EInputBindingType.Action =>
      GetInputImageSpriteFromAction GetActionMappingByName PreferedActionMapping
        (GetInputImageSpriteFromKey DefaultUiTheme)
        s ActionOrAxis DevicePreference PlayerIdx Theme
  | EInputBindingType.Axis =>
      GetInputImageSpriteFromAxis GetAxisMappingByName PreferedAxisMapping
        (GetInputImageSpriteFromKey DefaultUiTheme)
        s ActionOrAxis DevicePreference PlayerIdx Theme
  | EInputBindingType.Key =>
      GetInputImageSpriteFromKey DefaultUiTheme Key PlayerIdx Theme
  end.
End InputImageSprite.

(** * Properties *)

(** ** Arrays *)

Section ArrayFacts.
Variable z : EInputMode.
Implicit Types a : list EInputMode.

Lemma AllModes_complete (m : EInputMode) : m ∈ AllModes.
Proof. unfold AllModes. destruct m; repeat constructor. Qed.

(** A store that succeeds is an insertion into the array padded with
    the zero enumerator up to the written index. *)
Lemma GrowAndStore_Some i m a a' :
  GrowAndStore z i m a = Some a' →
  0 <= i ∧
  a' = <[Z.to_nat i := m]>
         (a ++ replicate (S (Z.to_nat i) - length a) z).
Proof.
  unfold GrowAndStore, TArray.Set_, TArray.SetNum, TArray.Num.
  destruct (Z.leb_spec (Z.of_nat (length a)) i) as [Hge|Hlt]; simpl.
  - destruct (Z.leb_spec INT_MAX i); simpl; [done|].
    destruct (Z.ltb_spec (Z.of_nat (length a)) (i + 1)); [|lia].
    rewrite length_app, length_replicate.
    destruct (Z.leb_spec 0 i); simpl; [|done].
    destruct (Z.ltb_spec i (Z.of_nat (length a + Z.to_nat (i + 1 - Z.of_nat (length a))))); simpl; [|done].
    intros [= <-]. split; [done|]. do 3 f_equal. lia.
  - destruct (Z.leb_spec 0 i); simpl; [|done].
    destruct (Z.ltb_spec i (Z.of_nat (length a))); simpl; [|lia].
    intros [= <-]. split; [done|].
    replace (S (Z.to_nat i) - length a)%nat with 0%nat by lia.
    simpl. by rewrite app_nil_r.
Qed.

Lemma GrowAndStore_is_Some i m a :
  ValidSlot i → is_Some (GrowAndStore z i m a).
Proof.
  intros [H0 Hmax].
  unfold GrowAndStore, TArray.Set_, TArray.SetNum, TArray.Num.
  destruct (Z.leb_spec (Z.of_nat (length a)) i) as [Hge|Hlt]; simpl.
  - destruct (Z.leb_spec INT_MAX i); [lia|]. simpl.
    destruct (Z.ltb_spec (Z.of_nat (length a)) (i + 1)); [|lia].
    rewrite length_app, length_replicate.
    destruct (Z.leb_spec 0 i); simpl; [|lia].
    destruct (Z.ltb_spec i (Z.of_nat (length a + Z.to_nat (i + 1 - Z.of_nat (length a))))); simpl; [eauto|lia].
  - destruct (Z.leb_spec 0 i); simpl; [|lia].
    destruct (Z.ltb_spec i (Z.of_nat (length a))); simpl; [eauto|lia].
Qed.

Lemma GrowAndStore_length i m a a' :
  GrowAndStore z i m a = Some a' →
  length a' = (length a `max` S (Z.to_nat i))%nat.
Proof.
  intros [_ ->]%GrowAndStore_Some.
  rewrite length_insert, length_app, length_replicate. lia.
Qed.

Lemma GrowAndStore_lookup_eq i m a a' :
  GrowAndStore z i m a = Some a' → a' !! Z.to_nat i = Some m.
Proof.
  intros [_ ->]%GrowAndStore_Some.
  apply list_lookup_insert_eq.
  rewrite length_app, length_replicate. lia.
Qed.

Lemma GrowAndStore_lookup_ne i m a a' (j : nat) :
  GrowAndStore z i m a = Some a' →
  j ≠ Z.to_nat i → (j < length a)%nat → a' !! j = a !! j.
Proof.
  intros [_ ->]%GrowAndStore_Some Hne Hlt.
  rewrite list_lookup_insert_ne by done.
  by apply lookup_app_l.
Qed.

(** The slots between the old length and the written one hold the zero
    enumerator. *)
Lemma GrowAndStore_lookup_fill i m a a' (j : nat) :
  GrowAndStore z i m a = Some a' →
  (length a ≤ j < Z.to_nat i)%nat → a' !! j = Some z.
Proof.
  intros [_ ->]%GrowAndStore_Some [Hge Hlt].
  rewrite list_lookup_insert_ne by lia.
  rewrite lookup_app_r by done.
  apply lookup_replicate_2. lia.
Qed.

Lemma GrowAndStore_Forall (P : EInputMode → Prop) i m a a' :
  GrowAndStore z i m a = Some a' →
  P z → P m → Forall P a → Forall P a'.
Proof.
  intros [_ ->]%GrowAndStore_Some Hz Hm Ha.
  apply Forall_insert; [|done].
  apply Forall_app; split; [done|].
  by apply Forall_replicate.
Qed.
End ArrayFacts.

(** ** Getters *)

Section GetterFacts.
Implicit Types (a : list EInputMode) (d : Detector).

Lemma ReadSlot_lookup dflt a i m :
  0 <= i → a !! Z.to_nat i = Some m → ReadSlot dflt a i = m.
Proof.
  intros Hi Hl. unfold ReadSlot, TArray.Num.
  apply lookup_lt_Some in Hl as Hlt.
  destruct (Z.leb_spec 0 i); [|lia].
  destruct (Z.ltb_spec i (Z.of_nat (length a))); [|lia].
  simpl. by rewrite Hl.
Qed.

Lemma ReadSlot_outside dflt a i :
  i < 0 ∨ TArray.Num a <= i → ReadSlot dflt a i = dflt.
Proof.
  intros Hout. unfold ReadSlot.
  destruct (Z.leb_spec 0 i); [|done].
  destruct (Z.ltb_spec i (TArray.Num a)); [lia|done].
Qed.

Lemma ReadSlot_Forall (P : EInputMode → Prop) dflt a i :
  P dflt → Forall P a → P (ReadSlot dflt a i).
Proof.
  intros Hd Ha. unfold ReadSlot.
  destruct (_ && _); [|done].
  destruct (a !! Z.to_nat i) as [m|] eqn:Hl; simpl; [|done].
  by eapply Forall_lookup_1.
Qed.

Lemma GetLastInputMode_ReadSlot d i :
  GetLastInputMode d i = ReadSlot DefaultInputMode (LastInputModeByPlayer d) i.
Proof. reflexivity. Qed.

Lemma GetLastButtonInputMode_ReadSlot d i :
  GetLastButtonInputMode d i
  = ReadSlot DefaultButtonInputMode (LastButtonPressByPlayer d) i.
Proof. reflexivity. Qed.
End GetterFacts.

(** ** The mode-set algorithm *)

Section SetModeFacts.
Variable z : EInputMode.
Implicit Types (d : Detector) (i : Z) (m : EInputMode) (b : bool).

(** What a completed [SetMode] did, read off the two tests. *)
Lemma SetMode_Some d i m b d' ns :
  SetMode z d i m b = Some (d', ns) →
  (if ButtonChanges d i m b
   then GrowAndStore z i m (LastButtonPressByPlayer d)
        = Some (LastButtonPressByPlayer d')
   else LastButtonPressByPlayer d' = LastButtonPressByPlayer d) ∧
  (if MainChanges d i m
   then GrowAndStore z i m (LastInputModeByPlayer d)
        = Some (LastInputModeByPlayer d')
   else LastInputModeByPlayer d' = LastInputModeByPlayer d) ∧
  bIgnoreEvents d' = bIgnoreEvents d ∧
  ns = (if ButtonChanges d i m b then [ButtonInputModeChanged i m] else [])
       ++ (if MainChanges d i m then [InputModeChanged i m] else []).
Proof.
  unfold SetMode. fold (ButtonChanges d i m b).
  destruct (ButtonChanges d i m b) eqn:Hb; simpl.
  - destruct (GrowAndStore z i m (LastButtonPressByPlayer d)) as [bs|] eqn:Hbs;
      simpl; [|done].
    change (bool_decide (m ≠ Unknown) && bool_decide (m ≠ GetLastInputMode _ i))
      with (MainChanges d i m).
    destruct (MainChanges d i m) eqn:Hm; simpl.
    + destruct (GrowAndStore z i m (LastInputModeByPlayer d)) as [ms|] eqn:Hms;
        simpl; [|done].
      by intros [= <- <-].
    + by intros [= <- <-].
  - change (bool_decide (m ≠ Unknown) && bool_decide (m ≠ GetLastInputMode _ i))
      with (MainChanges d i m).
    destruct (MainChanges d i m) eqn:Hm; simpl.
    + destruct (GrowAndStore z i m (LastInputModeByPlayer d)) as [ms|] eqn:Hms;
        simpl; [|done].
      by intros [= <- <-].
    + by intros [= <- <-].
Qed.

Lemma SetMode_is_Some d i m b :
  ValidSlot i → is_Some (SetMode z d i m b).
Proof.
  intros Hi. unfold SetMode.
  destruct (GrowAndStore_is_Some z i m (LastButtonPressByPlayer d) Hi) as [bs Hbs].
  destruct (GrowAndStore_is_Some z i m (LastInputModeByPlayer d) Hi) as [ms Hms].
  rewrite Hbs.
  destruct (_ && _ && _); simpl; rewrite Hms; destruct (_ && _); simpl; eauto.
Qed.

(** When nothing is to be changed the detector is returned as it was. *)
Lemma SetMode_unchanged d i m b :
  ButtonChanges d i m b = false → MainChanges d i m = false →
  SetMode z d i m b = Some (d, []).
Proof.
  intros Hb Hm. unfold SetMode. fold (ButtonChanges d i m b). rewrite Hb. simpl.
  change (bool_decide (m ≠ Unknown) && bool_decide (m ≠ GetLastInputMode _ i))
    with (MainChanges d i m).
  rewrite Hm. simpl. by destruct d.
Qed.

(** After a completed [SetMode] the main getter answers the new mode,
    unless the new mode is [Unknown]. *)
Lemma SetMode_main_after d i m b d' ns :
  SetMode z d i m b = Some (d', ns) → m ≠ Unknown →
  GetLastInputMode d' i = m.
Proof.
  intros (_ & Hmain & _)%SetMode_Some Hm.
  unfold MainChanges in Hmain.
  rewrite bool_decide_true in Hmain by done. simpl in Hmain.
  case_bool_decide as Hne.
  - destruct (GrowAndStore_Some _ _ _ _ _ Hmain) as [Hi _].
    rewrite GetLastInputMode_ReadSlot.
    eapply ReadSlot_lookup; [done|]. by eapply GrowAndStore_lookup_eq.
  - unfold GetLastInputMode in *. by rewrite Hmain.
Qed.

Lemma SetMode_button_after d i m d' ns :
  SetMode z d i m true = Some (d', ns) → m ≠ Unknown →
  GetLastButtonInputMode d' i = m.
Proof.
  intros (Hbtn & _)%SetMode_Some Hm.
  unfold ButtonChanges in Hbtn.
  rewrite bool_decide_true in Hbtn by done. simpl in Hbtn.
  case_bool_decide as Hne.
  - destruct (GrowAndStore_Some _ _ _ _ _ Hbtn) as [Hi _].
    rewrite GetLastButtonInputMode_ReadSlot.
    eapply ReadSlot_lookup; [done|]. by eapply GrowAndStore_lookup_eq.
  - unfold GetLastButtonInputMode in *. by rewrite Hbtn.
Qed.

(** The trace of a completed [SetMode], told from the getters before
    and after: a notification per getter whose answer changed. *)
Lemma SetMode_trace d i m b d' ns :
  SetMode z d i m b = Some (d', ns) →
  ns = (if bool_decide (GetLastButtonInputMode d' i ≠ GetLastButtonInputMode d i)
        then [ButtonInputModeChanged i (GetLastButtonInputMode d' i)] else [])
       ++ (if bool_decide (GetLastInputMode d' i ≠ GetLastInputMode d i)
           then [InputModeChanged i (GetLastInputMode d' i)] else []).
Proof.
  intros Hs. destruct (SetMode_Some _ _ _ _ _ _ Hs) as (Hbtn & Hmain & _ & ->).
  f_equal.
  - destruct (ButtonChanges d i m b) eqn:Hb.
    + unfold ButtonChanges in Hb.
      apply andb_prop in Hb as [[-> Hu%bool_decide_eq_true]%andb_prop
                                Hne%bool_decide_eq_true].
      rewrite (SetMode_button_after _ _ _ _ _ Hs Hu).
      by rewrite bool_decide_true.
    + rewrite bool_decide_false; [done|]. intros Hne. apply Hne.
      unfold GetLastButtonInputMode. by rewrite Hbtn.
  - destruct (MainChanges d i m) eqn:Hm.
    + unfold MainChanges in Hm.
      apply andb_prop in Hm as [Hu%bool_decide_eq_true Hne%bool_decide_eq_true].
      rewrite (SetMode_main_after _ _ _ _ _ _ Hs Hu).
      by rewrite bool_decide_true.
    + rewrite bool_decide_false; [done|]. intros Hne. apply Hne.
      unfold GetLastInputMode. by rewrite Hmain.
Qed.

Lemma SetMode_NoUnknown d i m b d' ns :
  z ≠ Unknown → NoUnknown d →
  SetMode z d i m b = Some (d', ns) → NoUnknown d'.
Proof.
  intros Hz [Hmn Hbn] (Hbtn & Hmain & _)%SetMode_Some. split.
  - destruct (MainChanges d i m) eqn:Hm; [|by rewrite Hmain].
    apply andb_prop in Hm as [Hu%bool_decide_eq_true _].
    by eapply (GrowAndStore_Forall z (λ m, m ≠ Unknown)).
  - destruct (ButtonChanges d i m b) eqn:Hb; [|by rewrite Hbtn].
    apply andb_prop in Hb as [[_ Hu%bool_decide_eq_true]%andb_prop _].
    by eapply (GrowAndStore_Forall z (λ m, m ≠ Unknown)).
Qed.
End SetModeFacts.

(** ** Handlers and runs *)

Section ProcessFacts.
Variable z : EInputMode.
Implicit Types (d : Detector) (e : InputEvent) (es : list InputEvent).

(** Every handler either leaves the detector alone or is one [SetMode]
    on the event's player index. *)
Lemma Process_cases d e :
  Process z d e = Some (d, []) ∨
  ∃ m b, Process z d e = SetMode z d (EventUserIndex e) m b ∧ m ≠ Unknown.
Proof.
  destruct e as [i k|i v|i p q|i|i]; simpl;
    unfold HandleKeyDownEvent, HandleAnalogInputEvent, HandleMouseMoveEvent,
      HandleMouseButtonDownEvent, HandleMouseWheelOrGestureEvent,
      ProcessKeyOrButton;
    destruct (ShouldProcessInputEvents d); auto.
  - destruct (IsGamepadKey k); [|destruct (IsMouseButton k)]; right; eauto.
  - destruct (Qgtb v GamepadAxisThreshold); [right|left]; eauto.
  - destruct (_ || _); [right|left]; eauto.
  - right; eauto.
  - right; eauto.
Qed.

Lemma Process_is_Some d e :
  ValidSlot (EventUserIndex e) → is_Some (Process z d e).
Proof.
  intros Hi. destruct (Process_cases d e) as [->|(m & b & -> & _)]; [eauto|].
  by apply SetMode_is_Some.
Qed.

Lemma Process_NoUnknown d e d' ns :
  z ≠ Unknown → NoUnknown d → Process z d e = Some (d', ns) → NoUnknown d'.
Proof.
  intros Hz Hd. destruct (Process_cases d e) as [->|(m & b & -> & _)].
  - by intros [= <- _].
  - by apply SetMode_NoUnknown.
Qed.

Lemma Process_trace d e d' ns :
  Process z d e = Some (d', ns) →
  let i := EventUserIndex e in
  ns = (if bool_decide (GetLastButtonInputMode d' i ≠ GetLastButtonInputMode d i)
        then [ButtonInputModeChanged i (GetLastButtonInputMode d' i)] else [])
       ++ (if bool_decide (GetLastInputMode d' i ≠ GetLastInputMode d i)
           then [InputModeChanged i (GetLastInputMode d' i)] else []).
Proof.
  destruct (Process_cases d e) as [->|(m & b & -> & _)].
  - intros [= <- <-]. simpl. by rewrite !bool_decide_false by auto.
  - apply SetMode_trace.
Qed.

Lemma Run_is_Some d es :
  Forall (λ e, ValidSlot (EventUserIndex e)) es → is_Some (Run z d es).
Proof.
  intros Hes. revert d.
  induction Hes as [|e es He _ IH]; intros d; simpl; [eauto|].
  destruct (Process_is_Some d e He) as [[d1 ns1] ->]. simpl.
  destruct (IH d1) as [[d2 ns2] ->]. simpl. eauto.
Qed.

Lemma Run_NoUnknown d es d' ns :
  z ≠ Unknown → NoUnknown d → Run z d es = Some (d', ns) → NoUnknown d'.
Proof.
  intros Hz. revert d ns.
  induction es as [|e es IH]; intros d ns Hd; simpl.
  - by intros [= <- _].
  - destruct (Process z d e) as [[d1 ns1]|] eqn:He; simpl; [|done].
    destruct (Run z d1 es) as [[d2 ns2]|] eqn:Hr; simpl; [|done].
    intros [= <- _]. eapply IH; [|done].
    by eapply Process_NoUnknown.
Qed.

Lemma NoUnknown_getters d slot :
  NoUnknown d →
  GetLastInputMode d slot ≠ Unknown ∧ GetLastButtonInputMode d slot ≠ Unknown.
Proof.
  intros [Hm Hb].
  rewrite GetLastInputMode_ReadSlot, GetLastButtonInputMode_ReadSlot.
  split; by apply (ReadSlot_Forall (λ m, m ≠ Unknown)).
Qed.
End ProcessFacts.

Lemma FInputModeDetector_NoUnknown : NoUnknown FInputModeDetector.
Proof. split; by repeat constructor. Qed.

(** ** The claims *)


(** X17. Under any other numbering the invariant holds: if the
    enumerator of value 0 is not [Unknown], then from the freshly
    constructed detector, whatever events are processed, no element of
    either array is [Unknown] and neither getter answers [Unknown] for
    any player index.  A run over valid player indices always
    completes. *)
Theorem getters_never_Unknown (z : EInputMode) (es : list InputEvent) :
  z ≠ Unknown →
  (Forall (λ e, ValidSlot (EventUserIndex e)) es →
   is_Some (Run z FInputModeDetector es)) ∧
  ∀ d ns, Run z FInputModeDetector es = Some (d, ns) →
    (Unknown ∉ LastInputModeByPlayer d) ∧
    (Unknown ∉ LastButtonPressByPlayer d) ∧
    ∀ slot : Z,
      GetLastInputMode d slot ≠ Unknown ∧ GetLastButtonInputMode d slot ≠ Unknown.
Proof.
  intros Hz. split; [apply Run_is_Some|].
  intros d ns Hrun.
  pose proof (Run_NoUnknown z _ _ _ _ Hz FInputModeDetector_NoUnknown Hrun) as Hd.
  destruct Hd as [Hm Hb].
  split; [|split].
  - intros Hin. by apply (proj1 (Forall_forall _ _) Hm Unknown).
  - intros Hin. by apply (proj1 (Forall_forall _ _) Hb Unknown).
  - intros slot. by apply NoUnknown_getters.
Qed.

Lemma getters_never_Unknown_witness :
  Mouse ≠ Unknown ∧
  ((Forall (λ e, ValidSlot (EventUserIndex e))
      [KeyDownEvent 10 EKeys.Gamepad_FaceButton_Bottom;
       AnalogInputEvent 1 (1 # 2); MouseButtonDownEvent 2] →
    is_Some (Run Mouse FInputModeDetector
               [KeyDownEvent 10 EKeys.Gamepad_FaceButton_Bottom;
                AnalogInputEvent 1 (1 # 2); MouseButtonDownEvent 2])) ∧
   ∀ d ns,
     Run Mouse FInputModeDetector
       [KeyDownEvent 10 EKeys.Gamepad_FaceButton_Bottom;
        AnalogInputEvent 1 (1 # 2); MouseButtonDownEvent 2] = Some (d, ns) →
     (Unknown ∉ LastInputModeByPlayer d) ∧
     (Unknown ∉ LastButtonPressByPlayer d) ∧
     ∀ slot : Z,
       GetLastInputMode d slot ≠ Unknown ∧ GetLastButtonInputMode d slot ≠ Unknown).
Proof.
  split; [discriminate|].
  apply (getters_never_Unknown Mouse). discriminate.
Defined.

(** The analog handler compares the signed value with the threshold: a
    value above it sets Gamepad mode, any other value (a negative one of
    any size as well) changes nothing. *)
Lemma HandleAnalogInputEvent_signed (z : EInputMode) (d : Detector) (i : Z) (v : Q) :
  bIgnoreEvents d = false →
  (Qgtb v GamepadAxisThreshold = false →
   HandleAnalogInputEvent z d i v = Some (d, [])) ∧
  (Qgtb v GamepadAxisThreshold = true → ValidSlot i →
   ∃ d' ns, HandleAnalogInputEvent z d i v = Some (d', ns) ∧
            GetLastInputMode d' i = Gamepad ∧
            LastButtonPressByPlayer d' = LastButtonPressByPlayer d).
Proof.
  intros Hon. unfold HandleAnalogInputEvent, ShouldProcessInputEvents.
  rewrite Hon. simpl. split; intros ->; [done|].
  intros Hi. destruct (SetMode_is_Some z d i Gamepad false Hi) as [[d' ns] Hs].
  exists d', ns. split; [done|]. split.
  - by eapply SetMode_main_after.
  - by destruct (SetMode_Some _ _ _ _ _ _ _ Hs) as (Hb & _).
Qed.

(** C2. The claim asks for Gamepad mode whenever the absolute value of
    the analog value exceeds the threshold.  The handler tests the signed
    value: for the value -1/2, whose absolute value is above the
    threshold, the fresh detector is returned unchanged, its main mode
    for player 0 still Mouse, and nothing is fired. *)
Theorem analog_negative_value_is_ignored (z : EInputMode) :
  Qgtb (Qabs (-1 # 2)) GamepadAxisThreshold = true ∧
  HandleAnalogInputEvent z FInputModeDetector 0 (-1 # 2)
  = Some (FInputModeDetector, []) ∧
  GetLastInputMode FInputModeDetector 0 = Mouse ∧
  ∃ d ns, HandleAnalogInputEvent z FInputModeDetector 0 (1 # 2) = Some (d, ns) ∧
          GetLastInputMode d 0 = Gamepad.
Proof.
  split; [reflexivity|]. split; [reflexivity|]. split; [reflexivity|].
  do 2 eexists. split; reflexivity.
Qed.

Lemma fresh_detector_reads_defaults (slot : Z) :
  GetLastInputMode FInputModeDetector slot = DefaultInputMode ∧
  GetLastButtonInputMode FInputModeDetector slot = DefaultButtonInputMode.
Proof.
  rewrite GetLastInputMode_ReadSlot, GetLastButtonInputMode_ReadSlot.
  split.
  - apply (ReadSlot_Forall (λ m, m = DefaultInputMode)); [done|].
    by repeat constructor.
  - apply (ReadSlot_Forall (λ m, m = DefaultButtonInputMode)); [done|].
    by repeat constructor.
Qed.

(** In general: whenever [SetMode] stores into the main array beyond its
    length, every slot between the old length and the written index
    reads as the zero enumerator afterwards; likewise for the button
    array. *)
Lemma SetMode_grown_slots_read_zero (z : EInputMode) (d : Detector) (s : Z)
    (m : EInputMode) (b : bool) (d' : Detector) (ns : list Notification) (j : Z) :
  SetMode z d s m b = Some (d', ns) →
  (MainChanges d s m = true →
   TArray.Num (LastInputModeByPlayer d) <= j < s →
   GetLastInputMode d' j = z) ∧
  (ButtonChanges d s m b = true →
   TArray.Num (LastButtonPressByPlayer d) <= j < s →
   GetLastButtonInputMode d' j = z).
Proof.
  intros (Hbtn & Hmain & _)%SetMode_Some. unfold TArray.Num. split.
  - intros Hc [Hge Hlt]. rewrite Hc in Hmain.
    rewrite GetLastInputMode_ReadSlot. apply ReadSlot_lookup; [lia|].
    eapply GrowAndStore_lookup_fill; [done|lia].
  - intros Hc [Hge Hlt]. rewrite Hc in Hbtn.
    rewrite GetLastButtonInputMode_ReadSlot. apply ReadSlot_lookup; [lia|].
    eapply GrowAndStore_lookup_fill; [done|lia].
Qed.

(** C3. Both arrays start with four elements and the fresh detector
    answers Mouse and Keyboard for every player index.  The slots that a
    write to a higher index adds are not seeded: after a gamepad button
    of player 10, both getters answer, for player 5, the enumerator of
    value 0, so they cannot both answer their defaults. *)
Theorem grown_slots_are_not_seeded (z : EInputMode) :
  TArray.Num (LastInputModeByPlayer FInputModeDetector) = 4 ∧
  TArray.Num (LastButtonPressByPlayer FInputModeDetector) = 4 ∧
  (∀ slot : Z,
     GetLastInputMode FInputModeDetector slot = Mouse ∧
     GetLastButtonInputMode FInputModeDetector slot = Keyboard) ∧
  ∃ d ns,
    HandleKeyDownEvent z FInputModeDetector 10 EKeys.Gamepad_FaceButton_Bottom
    = Some (d, ns) ∧
    TArray.Num (LastInputModeByPlayer d) = 11 ∧
    TArray.Num (LastButtonPressByPlayer d) = 11 ∧
    GetLastInputMode d 5 = z ∧
    GetLastButtonInputMode d 5 = z ∧
    ¬ (GetLastInputMode d 5 = DefaultInputMode ∧
       GetLastButtonInputMode d 5 = DefaultButtonInputMode).
Proof.
  split; [reflexivity|]. split; [reflexivity|].
  split; [apply fresh_detector_reads_defaults|].
  do 2 eexists. split; [reflexivity|].
  split; [reflexivity|]. split; [reflexivity|].
  split; [reflexivity|]. split; [reflexivity|].
  intros [H1 H2].
  change (z = Mouse) in H1. change (z = Keyboard) in H2. congruence.
Qed.

(** C6. While [bIgnoreEvents] is set, each of the five handlers returns
    the detector it was given, the two arrays included, and fires
    nothing, for every player index and payload. *)
Theorem ignored_events_change_nothing (z : EInputMode) (d : Detector) :
  bIgnoreEvents d = true →
  (∀ i k, HandleKeyDownEvent z d i k = Some (d, [])) ∧
  (∀ i v, HandleAnalogInputEvent z d i v = Some (d, [])) ∧
  (∀ i p q, HandleMouseMoveEvent z d i p q = Some (d, [])) ∧
  (∀ i, HandleMouseButtonDownEvent z d i = Some (d, [])) ∧
  (∀ i, HandleMouseWheelOrGestureEvent z d i = Some (d, [])).
Proof.
  intros Hoff.
  unfold HandleKeyDownEvent, HandleAnalogInputEvent, HandleMouseMoveEvent,
    HandleMouseButtonDownEvent, HandleMouseWheelOrGestureEvent,
    ShouldProcessInputEvents.
  rewrite Hoff. simpl. repeat split.
Qed.

Lemma ignored_events_change_nothing_witness :
  bIgnoreEvents (SetIgnoreEvents FInputModeDetector true) = true ∧
  ((∀ i k, HandleKeyDownEvent Mouse (SetIgnoreEvents FInputModeDetector true) i k
           = Some (SetIgnoreEvents FInputModeDetector true, [])) ∧
   (∀ i v, HandleAnalogInputEvent Mouse (SetIgnoreEvents FInputModeDetector true) i v
           = Some (SetIgnoreEvents FInputModeDetector true, [])) ∧
   (∀ i p q, HandleMouseMoveEvent Mouse (SetIgnoreEvents FInputModeDetector true) i p q
             = Some (SetIgnoreEvents FInputModeDetector true, [])) ∧
   (∀ i, HandleMouseButtonDownEvent Mouse (SetIgnoreEvents FInputModeDetector true) i
         = Some (SetIgnoreEvents FInputModeDetector true, [])) ∧
   (∀ i, HandleMouseWheelOrGestureEvent Mouse (SetIgnoreEvents FInputModeDetector true) i
         = Some (SetIgnoreEvents FInputModeDetector true, []))).
Proof.
  split; [reflexivity|].
  apply (ignored_events_change_nothing Mouse (SetIgnoreEvents FInputModeDetector true)).
  reflexivity.
Defined.

(** ** Frame of a store *)

Lemma GrowAndStore_frame (z dflt : EInputMode) (s : Z) (m : EInputMode)
    (a a' : list EInputMode) (j : Z) :
  GrowAndStore z s m a = Some a' →
  j ≠ s → 0 <= j < TArray.Num a →
  a' !! Z.to_nat j = a !! Z.to_nat j ∧ ReadSlot dflt a' j = ReadSlot dflt a j.
Proof.
  intros Hg Hne [H0 Hlt]. unfold TArray.Num in Hlt.
  destruct (GrowAndStore_Some _ _ _ _ _ Hg) as [Hs _].
  assert (a' !! Z.to_nat j = a !! Z.to_nat j) as Heq
    by (eapply GrowAndStore_lookup_ne; [done|lia|lia]).
  split; [done|].
  destruct (lookup_lt_is_Some_2 a (Z.to_nat j)) as [x Hx]; [lia|].
  rewrite (ReadSlot_lookup dflt a j x) by done.
  apply ReadSlot_lookup; [done|]. by rewrite Heq.
Qed.

(** C10. [SetMode] completes for every valid player index.  A
    completed [SetMode] for player [s] leaves every other player
    index that was inside an array where it was: the element and the
    getter's answer are the same before and after.  A call that is not a
    button event returns the button array as it was. *)
Theorem SetMode_touches_one_slot (z : EInputMode) (d : Detector) (s : Z)
    (m : EInputMode) (b : bool) :
  (ValidSlot s → is_Some (SetMode z d s m b)) ∧
  ∀ d' ns, SetMode z d s m b = Some (d', ns) →
    (∀ j : Z, j ≠ s → 0 <= j < TArray.Num (LastInputModeByPlayer d) →
       LastInputModeByPlayer d' !! Z.to_nat j = LastInputModeByPlayer d !! Z.to_nat j ∧
       GetLastInputMode d' j = GetLastInputMode d j) ∧
    (∀ j : Z, j ≠ s → 0 <= j < TArray.Num (LastButtonPressByPlayer d) →
       LastButtonPressByPlayer d' !! Z.to_nat j = LastButtonPressByPlayer d !! Z.to_nat j ∧
       GetLastButtonInputMode d' j = GetLastButtonInputMode d j) ∧
    (b = false → LastButtonPressByPlayer d' = LastButtonPressByPlayer d).
Proof.
  split; [apply SetMode_is_Some|].
  intros d' ns (Hbtn & Hmain & _)%SetMode_Some. split; [|split].
  - intros j Hne Hj. rewrite !GetLastInputMode_ReadSlot.
    destruct (MainChanges d s m); [|by rewrite Hmain].
    by eapply GrowAndStore_frame.
  - intros j Hne Hj. rewrite !GetLastButtonInputMode_ReadSlot.
    destruct (ButtonChanges d s m b); [|by rewrite Hbtn].
    by eapply GrowAndStore_frame.
  - intros ->. by unfold ButtonChanges in Hbtn.
Qed.

Lemma SetMode_touches_one_slot_witness :
  SetMode Mouse FInputModeDetector 1 Gamepad true
  = Some (mkDetector [Mouse; Gamepad; Mouse; Mouse]
                     [Keyboard; Gamepad; Keyboard; Keyboard] false,
          [ButtonInputModeChanged 1 Gamepad; InputModeChanged 1 Gamepad]) ∧
  ((∀ j : Z, j ≠ 1 → 0 <= j < TArray.Num (LastInputModeByPlayer FInputModeDetector) →
      [Mouse; Gamepad; Mouse; Mouse] !! Z.to_nat j
      = LastInputModeByPlayer FInputModeDetector !! Z.to_nat j ∧
      GetLastInputMode (mkDetector [Mouse; Gamepad; Mouse; Mouse]
                          [Keyboard; Gamepad; Keyboard; Keyboard] false) j
      = GetLastInputMode FInputModeDetector j) ∧
   (∀ j : Z, j ≠ 1 → 0 <= j < TArray.Num (LastButtonPressByPlayer FInputModeDetector) →
      [Keyboard; Gamepad; Keyboard; Keyboard] !! Z.to_nat j
      = LastButtonPressByPlayer FInputModeDetector !! Z.to_nat j ∧
      GetLastButtonInputMode (mkDetector [Mouse; Gamepad; Mouse; Mouse]
                                [Keyboard; Gamepad; Keyboard; Keyboard] false) j
      = GetLastButtonInputMode FInputModeDetector j) ∧
   (true = false →
    [Keyboard; Gamepad; Keyboard; Keyboard]
    = LastButtonPressByPlayer FInputModeDetector)).
Proof.
  split; [reflexivity|].
  apply (proj2 (SetMode_touches_one_slot Mouse FInputModeDetector 1 Gamepad true)
           (mkDetector [Mouse; Gamepad; Mouse; Mouse]
                       [Keyboard; Gamepad; Keyboard; Keyboard] false)
           [ButtonInputModeChanged 1 Gamepad; InputModeChanged 1 Gamepad]).
  reflexivity.
Defined.

(** ** Writes beyond the current length *)

(** C7, as the claim states it, fails: a mode-set of Mouse for player 10
    on the fresh detector, whose main array has four elements, completes
    without growing the array, whatever the enumerator of value 0. *)
Lemma SetMode_of_default_does_not_grow :
  Forall (λ z,
    SetMode z FInputModeDetector 10 Mouse false = Some (FInputModeDetector, []) ∧
    TArray.Num (LastInputModeByPlayer FInputModeDetector) = 4)
    AllModes.
Proof. repeat constructor. Qed.

(** C7, amended.  For a player index [s] at or beyond the length of an
    array, a completed mode-set of a mode [m] other than [Unknown] makes
    the getter answer [m] for [s]; the array grows to length [s + 1] when
    [m] is not the array's default, and is left as it was when [m] is the
    default (the getter then answers [m] through its fallback).  The
    button array takes part for a button event only.  The mode-set
    completes for every valid player index. *)
Theorem SetMode_beyond_length (z : EInputMode) (d : Detector) (s : Z)
    (m : EInputMode) (b : bool) :
  m ≠ Unknown →
  (ValidSlot s → is_Some (SetMode z d s m b)) ∧
  ∀ d' ns, SetMode z d s m b = Some (d', ns) →
    (TArray.Num (LastInputModeByPlayer d) <= s →
       GetLastInputMode d' s = m ∧
       (m ≠ DefaultInputMode →
        TArray.Num (LastInputModeByPlayer d') = s + 1) ∧
       (m = DefaultInputMode →
        LastInputModeByPlayer d' = LastInputModeByPlayer d)) ∧
    (b = true → TArray.Num (LastButtonPressByPlayer d) <= s →
       GetLastButtonInputMode d' s = m ∧
       (m ≠ DefaultButtonInputMode →
        TArray.Num (LastButtonPressByPlayer d') = s + 1) ∧
       (m = DefaultButtonInputMode →
        LastButtonPressByPlayer d' = LastButtonPressByPlayer d)).
Proof.
  intros Hm. split; [apply SetMode_is_Some|].
  intros d' ns Hs.
  destruct (SetMode_Some _ _ _ _ _ _ _ Hs) as (Hbtn & Hmain & _).
  split.
  - intros Hge. split; [by eapply SetMode_main_after|].
    assert (GetLastInputMode d s = DefaultInputMode) as Hdef
      by (rewrite GetLastInputMode_ReadSlot; apply ReadSlot_outside; by right).
    unfold MainChanges in Hmain. rewrite Hdef in Hmain.
    rewrite (bool_decide_true (m ≠ Unknown)) in Hmain by done. simpl in Hmain.
    split; intros Hd.
    + rewrite bool_decide_true in Hmain by done.
      apply GrowAndStore_length in Hmain.
      unfold TArray.Num in *. lia.
    + by rewrite bool_decide_false in Hmain by auto.
  - intros -> Hge. split; [by eapply SetMode_button_after|].
    assert (GetLastButtonInputMode d s = DefaultButtonInputMode) as Hdef
      by (rewrite GetLastButtonInputMode_ReadSlot; apply ReadSlot_outside; by right).
    unfold ButtonChanges in Hbtn. rewrite Hdef in Hbtn.
    rewrite (bool_decide_true (m ≠ Unknown)) in Hbtn by done. simpl in Hbtn.
    split; intros Hd.
    + rewrite bool_decide_true in Hbtn by done.
      apply GrowAndStore_length in Hbtn.
      unfold TArray.Num in *. lia.
    + by rewrite bool_decide_false in Hbtn by auto.
Qed.

Lemma SetMode_beyond_length_witness :
  Gamepad ≠ Unknown ∧
  ((ValidSlot 10 → is_Some (SetMode Mouse FInputModeDetector 10 Gamepad true)) ∧
   ∀ d' ns, SetMode Mouse FInputModeDetector 10 Gamepad true = Some (d', ns) →
     (TArray.Num (LastInputModeByPlayer FInputModeDetector) <= 10 →
        GetLastInputMode d' 10 = Gamepad ∧
        (Gamepad ≠ DefaultInputMode →
         TArray.Num (LastInputModeByPlayer d') = 10 + 1) ∧
        (Gamepad = DefaultInputMode →
         LastInputModeByPlayer d' = LastInputModeByPlayer FInputModeDetector)) ∧
     (true = true → TArray.Num (LastButtonPressByPlayer FInputModeDetector) <= 10 →
        GetLastButtonInputMode d' 10 = Gamepad ∧
        (Gamepad ≠ DefaultButtonInputMode →
         TArray.Num (LastButtonPressByPlayer d') = 10 + 1) ∧
        (Gamepad = DefaultButtonInputMode →
         LastButtonPressByPlayer d' = LastButtonPressByPlayer FInputModeDetector))).
Proof.
  split; [discriminate|].
  apply (SetMode_beyond_length Mouse FInputModeDetector 10 Gamepad true).
  discriminate.
Defined.

(** ** Notifications *)

Lemma Run_cons_Some (z : EInputMode) (d : Detector) (e : InputEvent)
    (es : list InputEvent) d1 ns1 d2 ns2 :
  Process z d e = Some (d1, ns1) → Run z d1 es = Some (d2, ns2) →
  Run z d (e :: es) = Some (d2, ns1 ++ ns2).
Proof. intros H1 H2. simpl. rewrite H1. simpl. by rewrite H2. Qed.

Lemma HandleMouseMoveEvent_above (z : EInputMode) (d : Detector) (i : Z)
    (p q : FScreenPosition) :
  bIgnoreEvents d = false → AboveMoveThreshold p q = true →
  HandleMouseMoveEvent z d i p q = SetMode z d i Mouse false.
Proof.
  intros Hon Hpq. unfold AboveMoveThreshold in Hpq.
  unfold HandleMouseMoveEvent, ShouldProcessInputEvents.
  rewrite Hon. cbv zeta. change (negb false) with true. cbv iota.
  by rewrite Hpq.
Qed.

(** C4, as the claim states it, fails in its last part: on the fresh
    detector, whose main mode for player 0 is already Mouse, two mouse
    moves above the threshold (of 5 and of 4 units) fire no notification
    at all, whatever the enumerator of value 0. *)
Lemma two_mouse_moves_on_fresh_detector_fire_nothing :
  Forall (λ z,
    AboveMoveThreshold (PositionOfZ 5 5) (PositionOfZ 0 0) = true ∧
    AboveMoveThreshold (PositionOfZ 9 5) (PositionOfZ 5 5) = true ∧
    Run z FInputModeDetector
      [MouseMoveEvent 0 (PositionOfZ 5 5) (PositionOfZ 0 0);
       MouseMoveEvent 0 (PositionOfZ 9 5) (PositionOfZ 5 5)]
    = Some (FInputModeDetector, []))
    AllModes.
Proof. repeat constructor. Qed.

(** C4, amended.  A process call for a valid player index completes.
    A completed process call fires, for the player index
    of its event, the button notification exactly when the answer of the
    button getter changed and the main notification exactly when the
    answer of the main getter changed, each once, button first, carrying
    the new answer; an event whose mode is the one already stored fires
    nothing.  Two consecutive mouse moves for one player that both pass
    the handler's threshold test, made on the float difference of the
    positions, fire at most one main notification: exactly one when the
    player's main mode was not Mouse before the first move, none when it
    was. *)
Theorem notifications_follow_changes (z : EInputMode) :
  (∀ d e, ValidSlot (EventUserIndex e) → is_Some (Process z d e)) ∧
  (∀ d e d' ns, Process z d e = Some (d', ns) →
     ns = (if bool_decide (GetLastButtonInputMode d' (EventUserIndex e)
                           ≠ GetLastButtonInputMode d (EventUserIndex e))
           then [ButtonInputModeChanged (EventUserIndex e)
                   (GetLastButtonInputMode d' (EventUserIndex e))]
           else [])
          ++ (if bool_decide (GetLastInputMode d' (EventUserIndex e)
                              ≠ GetLastInputMode d (EventUserIndex e))
              then [InputModeChanged (EventUserIndex e)
                      (GetLastInputMode d' (EventUserIndex e))]
              else [])) ∧
  (∀ d i p q p' q',
     bIgnoreEvents d = false → ValidSlot i →
     AboveMoveThreshold p q = true → AboveMoveThreshold p' q' = true →
     ∃ d', Run z d [MouseMoveEvent i p q; MouseMoveEvent i p' q']
           = Some (d', if bool_decide (GetLastInputMode d i = Mouse)
                       then [] else [InputModeChanged i Mouse])).
Proof.
  split; [intros d e; apply Process_is_Some|].
  split; [intros d e d' ns; apply Process_trace|].
  intros d i p q p' q' Hon Hi Hpq Hpq'.
  destruct (SetMode_is_Some z d i Mouse false Hi) as [[d1 ns1] Hs].
  pose proof (SetMode_main_after _ _ _ _ _ _ _ Hs ltac:(done)) as Hafter.
  destruct (SetMode_Some _ _ _ _ _ _ _ Hs) as (_ & _ & Hflag & Hns).
  assert (SetMode z d1 i Mouse false = Some (d1, [])) as Hs2.
  { apply SetMode_unchanged; [done|].
    unfold MainChanges. rewrite Hafter.
    by rewrite (bool_decide_false (Mouse ≠ Mouse)) by auto. }
  exists d1.
  rewrite (Run_cons_Some z d _ _ d1 ns1 d1 []).
  - rewrite app_nil_r. f_equal. f_equal. subst ns1.
    unfold ButtonChanges, MainChanges. simpl.
    destruct (decide (GetLastInputMode d i = Mouse)) as [Heq|Hne].
    + rewrite (bool_decide_true (_ = _)) by done.
      by rewrite bool_decide_false by auto.
    + rewrite (bool_decide_false (_ = _)) by done.
      by rewrite bool_decide_true by auto.
  - change (HandleMouseMoveEvent z d i p q = Some (d1, ns1)).
    by rewrite HandleMouseMoveEvent_above.
  - rewrite (Run_cons_Some z d1 _ _ d1 [] d1 []); [done| |done].
    change (HandleMouseMoveEvent z d1 i p' q' = Some (d1, [])).
    rewrite HandleMouseMoveEvent_above; [done| |done]. by rewrite Hflag.
Qed.

Lemma notifications_follow_changes_witness :
  (Process Mouse FInputModeDetector (MouseWheelOrGestureEvent 0)
   = Some (FInputModeDetector, []) ∧
   bIgnoreEvents FInputModeDetector = false ∧ ValidSlot 0 ∧
   AboveMoveThreshold (PositionOfZ 5 5) (PositionOfZ 0 0) = true ∧
   AboveMoveThreshold (PositionOfZ 9 5) (PositionOfZ 5 5) = true) ∧
  ([] = (if bool_decide (GetLastButtonInputMode FInputModeDetector 0
                         ≠ GetLastButtonInputMode FInputModeDetector 0)
         then [ButtonInputModeChanged 0 (GetLastButtonInputMode FInputModeDetector 0)]
         else [])
        ++ (if bool_decide (GetLastInputMode FInputModeDetector 0
                            ≠ GetLastInputMode FInputModeDetector 0)
            then [InputModeChanged 0 (GetLastInputMode FInputModeDetector 0)]
            else [])) ∧
  (∃ d', Run Mouse FInputModeDetector
           [MouseMoveEvent 0 (PositionOfZ 5 5) (PositionOfZ 0 0);
            MouseMoveEvent 0 (PositionOfZ 9 5) (PositionOfZ 5 5)]
         = Some (d', if bool_decide (GetLastInputMode FInputModeDetector 0 = Mouse)
                     then [] else [InputModeChanged 0 Mouse])).
Proof.
  split; [|split].
  - split; [reflexivity|]. split; [reflexivity|].
    split; [unfold ValidSlot, INT_MAX; lia|]. split; reflexivity.
  - exact (proj1 (proj2 (notifications_follow_changes Mouse))
             FInputModeDetector (MouseWheelOrGestureEvent 0)
             FInputModeDetector [] eq_refl).
  - apply (proj2 (proj2 (notifications_follow_changes Mouse)) FInputModeDetector 0);
      [reflexivity | unfold ValidSlot, INT_MAX; lia | reflexivity | reflexivity].
Defined.

(** ** Keys *)

Lemma IsAGamepadButton_stick (k : FKey) :
  KeyName k ∈ StickKeyNames → IsAGamepadButton k = false.
Proof.
  unfold StickKeyNames. rewrite !elem_of_cons, elem_of_nil.
  unfold IsAGamepadButton, FKey_neq. intros H.
  destruct (IsGamepadKey k); [|done].
  repeat (destruct H as [E|H]; [rewrite E; reflexivity|]).
  done.
Qed.

Lemma IsAGamepadButton_other (k : FKey) :
  IsGamepadKey k = true → KeyName k ∉ StickKeyNames → IsAGamepadButton k = true.
Proof.
  intros Hg Hn. unfold IsAGamepadButton, FKey_neq. rewrite Hg. simpl.
  repeat match goal with
    | |- context [String.eqb (KeyName k) ?s] =>
        destruct (String.eqb_spec (KeyName k) s) as [E|_];
        [exfalso; apply Hn; rewrite E; unfold StickKeyNames; by repeat constructor|]
    end.
  reflexivity.
Qed.

Lemma HandleKeyDownEvent_gamepad (z : EInputMode) (d : Detector) (i : Z) (k : FKey) :
  bIgnoreEvents d = false → IsGamepadKey k = true →
  HandleKeyDownEvent z d i k = SetMode z d i Gamepad (IsAGamepadButton k).
Proof.
  intros Hon Hg. unfold HandleKeyDownEvent, ShouldProcessInputEvents, ProcessKeyOrButton.
  by rewrite Hon, Hg.
Qed.

(** C5. With events not ignored, a key-down of a gamepad key for a valid
    player index leaves that player's main mode at Gamepad.  If the key
    is one of the eight stick identifiers, the button array is returned
    as it was and at most the main notification is fired; any other
    gamepad key is a button event: the button mode becomes Gamepad as
    well, and each of the two notifications is fired when its mode was
    not Gamepad before. *)
Theorem stick_keys_are_not_buttons (z : EInputMode) (d : Detector) (i : Z) (k : FKey) :
  bIgnoreEvents d = false → ValidSlot i → IsGamepadKey k = true →
  ∃ d' ns,
    HandleKeyDownEvent z d i k = Some (d', ns) ∧
    GetLastInputMode d' i = Gamepad ∧
    (KeyName k ∈ StickKeyNames →
       LastButtonPressByPlayer d' = LastButtonPressByPlayer d ∧
       GetLastButtonInputMode d' i = GetLastButtonInputMode d i ∧
       ns = (if bool_decide (Gamepad ≠ GetLastInputMode d i)
             then [InputModeChanged i Gamepad] else [])) ∧
    (KeyName k ∉ StickKeyNames →
       GetLastButtonInputMode d' i = Gamepad ∧
       ns = (if bool_decide (Gamepad ≠ GetLastButtonInputMode d i)
             then [ButtonInputModeChanged i Gamepad] else [])
            ++ (if bool_decide (Gamepad ≠ GetLastInputMode d i)
                then [InputModeChanged i Gamepad] else [])).
Proof.
  intros Hon Hi Hg. rewrite HandleKeyDownEvent_gamepad by done.
  destruct (SetMode_is_Some z d i Gamepad (IsAGamepadButton k) Hi) as [[d' ns] Hs].
  exists d', ns. split; [done|].
  pose proof (SetMode_main_after _ _ _ _ _ _ _ Hs ltac:(done)) as Hmain.
  pose proof (SetMode_trace _ _ _ _ _ _ _ Hs) as Hns.
  rewrite Hmain in Hns.
  split; [done|]. split.
  - intros Hstick. rewrite (IsAGamepadButton_stick k Hstick) in Hs.
    destruct (SetMode_Some _ _ _ _ _ _ _ Hs) as (Hbtn & _).
    simpl in Hbtn.
    assert (GetLastButtonInputMode d' i = GetLastButtonInputMode d i) as Heq
      by (unfold GetLastButtonInputMode; by rewrite Hbtn).
    split; [done|]. split; [done|].
    by rewrite bool_decide_false in Hns by auto.
  - intros Hother. rewrite (IsAGamepadButton_other k Hg Hother) in Hs.
    pose proof (SetMode_button_after _ _ _ _ _ _ Hs ltac:(done)) as Hbtn.
    by rewrite Hbtn in Hns.
Qed.

Lemma stick_keys_are_not_buttons_witness :
  (bIgnoreEvents FInputModeDetector = false ∧ ValidSlot 0 ∧
   IsGamepadKey EKeys.Gamepad_LeftStick_Up = true) ∧
  ∃ d' ns,
    HandleKeyDownEvent Mouse FInputModeDetector 0 EKeys.Gamepad_LeftStick_Up
    = Some (d', ns) ∧
    GetLastInputMode d' 0 = Gamepad ∧
    (KeyName EKeys.Gamepad_LeftStick_Up ∈ StickKeyNames →
       LastButtonPressByPlayer d' = LastButtonPressByPlayer FInputModeDetector ∧
       GetLastButtonInputMode d' 0 = GetLastButtonInputMode FInputModeDetector 0 ∧
       ns = (if bool_decide (Gamepad ≠ GetLastInputMode FInputModeDetector 0)
             then [InputModeChanged 0 Gamepad] else [])) ∧
    (KeyName EKeys.Gamepad_LeftStick_Up ∉ StickKeyNames →
       GetLastButtonInputMode d' 0 = Gamepad ∧
       ns = (if bool_decide (Gamepad ≠ GetLastButtonInputMode FInputModeDetector 0)
             then [ButtonInputModeChanged 0 Gamepad] else [])
            ++ (if bool_decide (Gamepad ≠ GetLastInputMode FInputModeDetector 0)
                then [InputModeChanged 0 Gamepad] else [])).
Proof.
  split.
  - split; [reflexivity|]. split; [unfold ValidSlot, INT_MAX; lia|reflexivity].
  - apply (stick_keys_are_not_buttons Mouse FInputModeDetector 0
             EKeys.Gamepad_LeftStick_Up);
      [reflexivity | unfold ValidSlot, INT_MAX; lia | reflexivity].
Defined.

(** ** Foreground check *)

(** C9. A poll that observes the stored focus state, or observes
    nothing because the viewport is not there, returns the subsystem as
    it was and broadcasts nothing.  A poll that observes the other state
    stores it, sets [bIgnoreEvents] of the detector to its negation,
    leaves the detector's arrays alone and broadcasts the new state
    once. *)
Theorem CheckForeground_is_edge_triggered (s : Subsystem) :
  CheckForeground s None = (s, []) ∧
  ∀ b : bool,
    (b = bIsForeground s → CheckForeground s (Some b) = (s, [])) ∧
    (b ≠ bIsForeground s →
       CheckForeground s (Some b)
       = (mkSubsystem b (SetIgnoreEvents (InputDetector s) (negb b)), [b]) ∧
       bIgnoreEvents (SetIgnoreEvents (InputDetector s) (negb b)) = negb b ∧
       LastInputModeByPlayer (SetIgnoreEvents (InputDetector s) (negb b))
       = LastInputModeByPlayer (InputDetector s) ∧
       LastButtonPressByPlayer (SetIgnoreEvents (InputDetector s) (negb b))
       = LastButtonPressByPlayer (InputDetector s)).
Proof.
  unfold CheckForeground. split.
  - by rewrite bool_decide_false by auto.
  - intros b. split.
    + intros ->. by rewrite bool_decide_false by auto.
    + intros Hne. by rewrite bool_decide_true.
Qed.

Lemma CheckForeground_is_edge_triggered_witness :
  (true = bIsForeground (mkSubsystem true FInputModeDetector) ∧
   CheckForeground (mkSubsystem true FInputModeDetector) (Some true)
   = (mkSubsystem true FInputModeDetector, [])) ∧
  (false ≠ bIsForeground (mkSubsystem true FInputModeDetector) ∧
   CheckForeground (mkSubsystem true FInputModeDetector) (Some false)
   = (mkSubsystem false (SetIgnoreEvents FInputModeDetector true), [false])).
Proof.
  split.
  - split; [reflexivity|].
    apply (proj2 (CheckForeground_is_edge_triggered
                    (mkSubsystem true FInputModeDetector)) true).
    reflexivity.
  - split; [discriminate|].
    apply (proj2 (CheckForeground_is_edge_triggered
                    (mkSubsystem true FInputModeDetector)) false).
    discriminate.
Defined.

(** ** Device preference *)


(** * Further properties of the detector *)

(** ** One step, seen from one player *)

Lemma default_last_cons {A : Type} (a x : A) (l : list A) :
  default a (last (x :: l)) = default x (last l).
Proof. rewrite last_cons. by destruct (last l). Qed.

Lemma MainModesFor_app (i : Z) (a b : list Notification) :
  MainModesFor i (a ++ b) = MainModesFor i a ++ MainModesFor i b.
Proof. apply omap_app. Qed.

Lemma ButtonModesFor_app (i : Z) (a b : list Notification) :
  ButtonModesFor i (a ++ b) = ButtonModesFor i a ++ ButtonModesFor i b.
Proof. apply omap_app. Qed.

Lemma GrowAndStore_Num (z : EInputMode) (s : Z) (m : EInputMode)
    (a a' : list EInputMode) :
  GrowAndStore z s m a = Some a' →
  TArray.Num a <= TArray.Num a' ∧ 0 <= s < TArray.Num a'.
Proof.
  intros Hg. destruct (GrowAndStore_Some _ _ _ _ _ Hg) as [Hs _].
  apply GrowAndStore_length in Hg. unfold TArray.Num. lia.
Qed.

(** What one process call does to the main mode of player [i] and to the
    main notifications for [i]: either nothing is announced and, if [i]
    was inside the array, its mode is kept; or one mode is announced, it
    differs from the previous one and is the one stored. *)
Lemma Process_main_step (z : EInputMode) (d : Detector) (e : InputEvent)
    (d1 : Detector) (ns1 : list Notification) (i : Z) :
  Process z d e = Some (d1, ns1) →
  TArray.Num (LastInputModeByPlayer d) <= TArray.Num (LastInputModeByPlayer d1) ∧
  ((MainModesFor i ns1 = [] ∧
    (0 <= i < TArray.Num (LastInputModeByPlayer d) →
     GetLastInputMode d1 i = GetLastInputMode d i)) ∨
   (∃ m, MainModesFor i ns1 = [m] ∧ GetLastInputMode d1 i = m ∧
         0 <= i < TArray.Num (LastInputModeByPlayer d1) ∧
         m ≠ GetLastInputMode d i)).
Proof.
  destruct (Process_cases z d e) as [->|(m & b & -> & Hm)].
  { intros [= <- <-]. split; [lia|]. left. by split. }
  set (j := EventUserIndex e). intros Hs.
  destruct (SetMode_Some _ _ _ _ _ _ _ Hs) as (_ & Hmain & _ & ->).
  rewrite MainModesFor_app.
  replace (MainModesFor i (if ButtonChanges d j m b
                           then [ButtonInputModeChanged j m] else []))
    with (@nil EInputMode) by (by destruct (ButtonChanges d j m b)).
  rewrite app_nil_l.
  destruct (MainChanges d j m) eqn:Hc.
  - destruct (GrowAndStore_Num _ _ _ _ _ Hmain) as [Hmono Hin].
    split; [done|].
    unfold MainModesFor. simpl. case_bool_decide as Hji.
    + right. exists m. subst i. split; [done|].
      split; [by eapply SetMode_main_after|]. split; [done|].
      unfold MainChanges in Hc.
      by apply andb_prop in Hc as [_ Hne%bool_decide_eq_true].
    + left. split; [done|]. intros Hi.
      rewrite !GetLastInputMode_ReadSlot.
      by eapply GrowAndStore_frame.
  - rewrite Hmain. split; [lia|]. left. split; [done|].
    intros _. unfold GetLastInputMode. by rewrite Hmain.
Qed.

Lemma Process_button_step (z : EInputMode) (d : Detector) (e : InputEvent)
    (d1 : Detector) (ns1 : list Notification) (i : Z) :
  Process z d e = Some (d1, ns1) →
  TArray.Num (LastButtonPressByPlayer d) <= TArray.Num (LastButtonPressByPlayer d1) ∧
  ((ButtonModesFor i ns1 = [] ∧
    (0 <= i < TArray.Num (LastButtonPressByPlayer d) →
     GetLastButtonInputMode d1 i = GetLastButtonInputMode d i)) ∨
   (∃ m, ButtonModesFor i ns1 = [m] ∧ GetLastButtonInputMode d1 i = m ∧
         0 <= i < TArray.Num (LastButtonPressByPlayer d1) ∧
         m ≠ GetLastButtonInputMode d i)).
Proof.
  destruct (Process_cases z d e) as [->|(m & b & -> & Hm)].
  { intros [= <- <-]. split; [lia|]. left. by split. }
  set (j := EventUserIndex e). intros Hs.
  destruct (SetMode_Some _ _ _ _ _ _ _ Hs) as (Hbtn & _ & _ & ->).
  rewrite ButtonModesFor_app.
  replace (ButtonModesFor i (if MainChanges d j m
                             then [InputModeChanged j m] else []))
    with (@nil EInputMode) by (by destruct (MainChanges d j m)).
  rewrite app_nil_r.
  destruct (ButtonChanges d j m b) eqn:Hc.
  - destruct (GrowAndStore_Num _ _ _ _ _ Hbtn) as [Hmono Hin].
    split; [done|].
    unfold ButtonModesFor. simpl. case_bool_decide as Hji.
    + right. exists m. subst i. split; [done|].
      unfold ButtonChanges in Hc.
      apply andb_prop in Hc as [[Hb _]%andb_prop Hne%bool_decide_eq_true].
      subst b.
      split; [by eapply SetMode_button_after|]. by split.
    + left. split; [done|]. intros Hi.
      rewrite !GetLastButtonInputMode_ReadSlot.
      by eapply GrowAndStore_frame.
  - rewrite Hbtn. split; [lia|]. left. split; [done|].
    intros _. unfold GetLastButtonInputMode. by rewrite Hbtn.
Qed.

(** ** Runs, seen from one player *)

(** The two channels of the detector (main mode, button mode) obey the
    same step law; the facts about runs are proved once for both. *)
Section Channel.
Variable z : EInputMode.
Variable get : Detector → Z → EInputMode.
Variable num : Detector → Z.
Variable modes : Z → list Notification → list EInputMode.
Hypothesis modes_app : ∀ i a b, modes i (a ++ b) = modes i a ++ modes i b.
Hypothesis modes_nil : ∀ i, modes i [] = [].
Hypothesis step : ∀ d e d1 ns1 i,
  Process z d e = Some (d1, ns1) →
  num d <= num d1 ∧
  ((modes i ns1 = [] ∧ (0 <= i < num d → get d1 i = get d i)) ∨
   (∃ m, modes i ns1 = [m] ∧ get d1 i = m ∧ 0 <= i < num d1 ∧ m ≠ get d i)).

Lemma Run_channel_sync (d : Detector) (es : list InputEvent) (d' : Detector)
    (ns : list Notification) (i : Z) :
  Run z d es = Some (d', ns) →
  modes i ns ≠ [] ∨ 0 <= i < num d →
  get d' i = default (get d i) (last (modes i ns)).
Proof.
  revert d ns. induction es as [|e es IH]; intros d ns; simpl.
  - intros [= <- <-] _. by rewrite modes_nil.
  - destruct (Process z d e) as [[d1 ns1]|] eqn:He; simpl; [|done].
    destruct (Run z d1 es) as [[d2 ns2]|] eqn:Hr; simpl; [|done].
    intros [= <- <-]. rewrite modes_app.
    destruct (step d e d1 ns1 i He) as [Hmono [[-> Hkeep]|(m & -> & Hget & Hin & _)]].
    + rewrite app_nil_l. intros Hor.
      rewrite (IH d1 ns2 Hr) by (destruct Hor; [by left|right; lia]).
      destruct (modes i ns2) as [|x l] eqn:Hm; [|by rewrite !default_last_cons].
      simpl. apply Hkeep. by destruct Hor.
    + intros _. rewrite (IH d1 ns2 Hr) by (by right).
      simpl app. by rewrite default_last_cons, Hget.
Qed.

Lemma Run_channel_no_repeat_from (d : Detector) (es : list InputEvent)
    (d' : Detector) (ns : list Notification) (i : Z) :
  Run z d es = Some (d', ns) → 0 <= i < num d →
  NoAdjacentRepeat (get d i :: modes i ns).
Proof.
  revert d ns. induction es as [|e es IH]; intros d ns; simpl.
  - intros [= <- <-] _. by rewrite modes_nil.
  - destruct (Process z d e) as [[d1 ns1]|] eqn:He; simpl; [|done].
    destruct (Run z d1 es) as [[d2 ns2]|] eqn:Hr; simpl; [|done].
    intros [= <- <-] Hi. rewrite modes_app.
    destruct (step d e d1 ns1 i He) as [Hmono [[-> Hkeep]|(m & -> & Hget & Hin & Hne)]].
    + rewrite app_nil_l, <- (Hkeep Hi). apply (IH d1 ns2 Hr). lia.
    + pose proof (IH d1 ns2 Hr Hin) as Hrest. rewrite Hget in Hrest.
      simpl. simpl in Hrest. by split.
Qed.

Lemma Run_channel_no_repeat (d : Detector) (es : list InputEvent)
    (d' : Detector) (ns : list Notification) (i : Z) :
  Run z d es = Some (d', ns) → NoAdjacentRepeat (modes i ns).
Proof.
  revert d ns. induction es as [|e es IH]; intros d ns; simpl.
  - intros [= <- <-]. by rewrite modes_nil.
  - destruct (Process z d e) as [[d1 ns1]|] eqn:He; simpl; [|done].
    destruct (Run z d1 es) as [[d2 ns2]|] eqn:Hr; simpl; [|done].
    intros [= <- <-]. rewrite modes_app.
    destruct (step d e d1 ns1 i He) as [Hmono [[-> Hkeep]|(m & -> & Hget & Hin & Hne)]].
    + rewrite app_nil_l. by apply (IH d1 ns2).
    + pose proof (Run_channel_no_repeat_from d1 es d2 ns2 i Hr Hin) as Hrest.
      by rewrite Hget in Hrest.
Qed.
End Channel.

(** X1. After a completed run, for a player for whom a main notification
    was fired or whose index was inside the main array at the start, the
    main getter answers the mode of the last main notification for that
    player (the mode at the start when there was none); the same holds
    for the button getter and the button notifications.  A slot that the
    run created by growth, for a player without a notification, is not
    covered: its getter can change with nothing fired. *)
Theorem getters_agree_with_last_notification (z : EInputMode) (d : Detector)
    (es : list InputEvent) (d' : Detector) (ns : list Notification) (i : Z) :
  Run z d es = Some (d', ns) →
  (MainModesFor i ns ≠ [] ∨ 0 <= i < TArray.Num (LastInputModeByPlayer d) →
   GetLastInputMode d' i
   = default (GetLastInputMode d i) (last (MainModesFor i ns))) ∧
  (ButtonModesFor i ns ≠ [] ∨ 0 <= i < TArray.Num (LastButtonPressByPlayer d) →
   GetLastButtonInputMode d' i
   = default (GetLastButtonInputMode d i) (last (ButtonModesFor i ns))).
Proof.
  intros Hrun. split.
  - apply (Run_channel_sync z GetLastInputMode
             (λ d, TArray.Num (LastInputModeByPlayer d)) MainModesFor
             MainModesFor_app (λ _, eq_refl) (Process_main_step z) d es d' ns i Hrun).
  - apply (Run_channel_sync z GetLastButtonInputMode
             (λ d, TArray.Num (LastButtonPressByPlayer d)) ButtonModesFor
             ButtonModesFor_app (λ _, eq_refl) (Process_button_step z) d es d' ns i Hrun).
Qed.

Lemma getters_agree_with_last_notification_witness :
  Run Mouse FInputModeDetector
    [KeyDownEvent 1 EKeys.Gamepad_FaceButton_Bottom;
     MouseMoveEvent 1 (PositionOfZ 5 5) (PositionOfZ 0 0);
     KeyDownEvent 0 EKeys.SpaceBar]
  = Some (mkDetector [Keyboard; Mouse; Mouse; Mouse]
                     [Keyboard; Gamepad; Keyboard; Keyboard] false,
          [ButtonInputModeChanged 1 Gamepad; InputModeChanged 1 Gamepad;
           InputModeChanged 1 Mouse; InputModeChanged 0 Keyboard]) ∧
  (MainModesFor 1 [ButtonInputModeChanged 1 Gamepad; InputModeChanged 1 Gamepad;
                   InputModeChanged 1 Mouse; InputModeChanged 0 Keyboard] ≠ [] ∨
   0 <= 1 < TArray.Num (LastInputModeByPlayer FInputModeDetector) →
   GetLastInputMode (mkDetector [Keyboard; Mouse; Mouse; Mouse]
                       [Keyboard; Gamepad; Keyboard; Keyboard] false) 1
   = default (GetLastInputMode FInputModeDetector 1)
       (last (MainModesFor 1
                [ButtonInputModeChanged 1 Gamepad; InputModeChanged 1 Gamepad;
                 InputModeChanged 1 Mouse; InputModeChanged 0 Keyboard]))) ∧
  (ButtonModesFor 1 [ButtonInputModeChanged 1 Gamepad; InputModeChanged 1 Gamepad;
                     InputModeChanged 1 Mouse; InputModeChanged 0 Keyboard] ≠ [] ∨
   0 <= 1 < TArray.Num (LastButtonPressByPlayer FInputModeDetector) →
   GetLastButtonInputMode (mkDetector [Keyboard; Mouse; Mouse; Mouse]
                             [Keyboard; Gamepad; Keyboard; Keyboard] false) 1
   = default (GetLastButtonInputMode FInputModeDetector 1)
       (last (ButtonModesFor 1
                [ButtonInputModeChanged 1 Gamepad; InputModeChanged 1 Gamepad;
                 InputModeChanged 1 Mouse; InputModeChanged 0 Keyboard]))).
Proof.
  split; [reflexivity|].
  apply (getters_agree_with_last_notification Mouse FInputModeDetector
           [KeyDownEvent 1 EKeys.Gamepad_FaceButton_Bottom;
            MouseMoveEvent 1 (PositionOfZ 5 5) (PositionOfZ 0 0);
            KeyDownEvent 0 EKeys.SpaceBar]).
  reflexivity.
Defined.

(** X2. No mode is announced twice in a row to the same player: in the
    trace of a completed run, two successive main notifications for one
    player carry different modes, and so do two successive button
    notifications.  For a player whose index was inside the array at the
    start, the first notification also differs from the mode at the
    start. *)
Theorem notifications_never_repeat_a_mode (z : EInputMode) (d : Detector)
    (es : list InputEvent) (d' : Detector) (ns : list Notification) (i : Z) :
  Run z d es = Some (d', ns) →
  NoAdjacentRepeat (MainModesFor i ns) ∧
  NoAdjacentRepeat (ButtonModesFor i ns) ∧
  (0 <= i < TArray.Num (LastInputModeByPlayer d) →
   NoAdjacentRepeat (GetLastInputMode d i :: MainModesFor i ns)) ∧
  (0 <= i < TArray.Num (LastButtonPressByPlayer d) →
   NoAdjacentRepeat (GetLastButtonInputMode d i :: ButtonModesFor i ns)).
Proof.
  intros Hrun. split; [|split; [|split]].
  - apply (Run_channel_no_repeat z GetLastInputMode
             (λ d, TArray.Num (LastInputModeByPlayer d)) MainModesFor
             MainModesFor_app (λ _, eq_refl) (Process_main_step z) d es d' ns i Hrun).
  - apply (Run_channel_no_repeat z GetLastButtonInputMode
             (λ d, TArray.Num (LastButtonPressByPlayer d)) ButtonModesFor
             ButtonModesFor_app (λ _, eq_refl) (Process_button_step z) d es d' ns i Hrun).
  - apply (Run_channel_no_repeat_from z GetLastInputMode
             (λ d, TArray.Num (LastInputModeByPlayer d)) MainModesFor
             MainModesFor_app (λ _, eq_refl) (Process_main_step z) d es d' ns i Hrun).
  - apply (Run_channel_no_repeat_from z GetLastButtonInputMode
             (λ d, TArray.Num (LastButtonPressByPlayer d)) ButtonModesFor
             ButtonModesFor_app (λ _, eq_refl) (Process_button_step z) d es d' ns i Hrun).
Qed.

Lemma notifications_never_repeat_a_mode_witness :
  Run Mouse FInputModeDetector
    [KeyDownEvent 0 EKeys.Gamepad_FaceButton_Bottom;
     AnalogInputEvent 0 (1 # 2);
     MouseMoveEvent 0 (PositionOfZ 5 5) (PositionOfZ 0 0);
     MouseWheelOrGestureEvent 0;
     KeyDownEvent 0 EKeys.SpaceBar]
  = Some (mkDetector [Keyboard; Mouse; Mouse; Mouse]
                     [Keyboard; Keyboard; Keyboard; Keyboard] false,
          [ButtonInputModeChanged 0 Gamepad; InputModeChanged 0 Gamepad;
           InputModeChanged 0 Mouse; ButtonInputModeChanged 0 Keyboard;
           InputModeChanged 0 Keyboard]) ∧
  NoAdjacentRepeat
    (MainModesFor 0 [ButtonInputModeChanged 0 Gamepad; InputModeChanged 0 Gamepad;
                     InputModeChanged 0 Mouse; ButtonInputModeChanged 0 Keyboard;
                     InputModeChanged 0 Keyboard]) ∧
  NoAdjacentRepeat
    (ButtonModesFor 0 [ButtonInputModeChanged 0 Gamepad; InputModeChanged 0 Gamepad;
                       InputModeChanged 0 Mouse; ButtonInputModeChanged 0 Keyboard;
                       InputModeChanged 0 Keyboard]) ∧
  (0 <= 0 < TArray.Num (LastInputModeByPlayer FInputModeDetector) →
   NoAdjacentRepeat
     (GetLastInputMode FInputModeDetector 0
      :: MainModesFor 0 [ButtonInputModeChanged 0 Gamepad; InputModeChanged 0 Gamepad;
                         InputModeChanged 0 Mouse; ButtonInputModeChanged 0 Keyboard;
                         InputModeChanged 0 Keyboard])) ∧
  (0 <= 0 < TArray.Num (LastButtonPressByPlayer FInputModeDetector) →
   NoAdjacentRepeat
     (GetLastButtonInputMode FInputModeDetector 0
      :: ButtonModesFor 0 [ButtonInputModeChanged 0 Gamepad; InputModeChanged 0 Gamepad;
                           InputModeChanged 0 Mouse; ButtonInputModeChanged 0 Keyboard;
                           InputModeChanged 0 Keyboard])).
Proof.
  split; [reflexivity|].
  apply (notifications_never_repeat_a_mode Mouse FInputModeDetector
           [KeyDownEvent 0 EKeys.Gamepad_FaceButton_Bottom;
            AnalogInputEvent 0 (1 # 2);
            MouseMoveEvent 0 (PositionOfZ 5 5) (PositionOfZ 0 0);
            MouseWheelOrGestureEvent 0;
            KeyDownEvent 0 EKeys.SpaceBar]
           (mkDetector [Keyboard; Mouse; Mouse; Mouse]
                       [Keyboard; Keyboard; Keyboard; Keyboard] false)).
  reflexivity.
Defined.

(** ** Events and the modes they ask for *)

Lemma Process_EventMode (z : EInputMode) (d : Detector) (e : InputEvent) :
  Process z d e
  = if bIgnoreEvents d then Some (d, [])
    else match EventMode e with
         | Some (m, b) => SetMode z d (EventUserIndex e) m b
         | None => Some (d, [])
         end.
Proof.
  destruct e as [i k|i v|i p q|i|i]; simpl;
    unfold HandleKeyDownEvent, HandleAnalogInputEvent, HandleMouseMoveEvent,
      HandleMouseButtonDownEvent, HandleMouseWheelOrGestureEvent,
      ProcessKeyOrButton, ShouldProcessInputEvents, AboveMoveThreshold;
    destruct (bIgnoreEvents d); simpl; try reflexivity.
  - by destruct (IsGamepadKey k), (IsMouseButton k).
  - by destruct (Qgtb v GamepadAxisThreshold).
  - by destruct (_ || _).
Qed.

Lemma EventMode_not_Unknown (e : InputEvent) (m : EInputMode) (b : bool) :
  EventMode e = Some (m, b) → m ≠ Unknown.
Proof.
  destruct e as [i k|i v|i p q|i|i]; simpl.
  - destruct (IsGamepadKey k), (IsMouseButton k); by intros [= <- _].
  - destruct (Qgtb v GamepadAxisThreshold); [by intros [= <- _]|done].
  - destruct (AboveMoveThreshold p q); [by intros [= <- _]|done].
  - by intros [= <- _].
  - by intros [= <- _].
Qed.

Lemma Process_flag (z : EInputMode) (d : Detector) (e : InputEvent)
    (d1 : Detector) (ns1 : list Notification) :
  Process z d e = Some (d1, ns1) → bIgnoreEvents d1 = bIgnoreEvents d.
Proof.
  destruct (Process_cases z d e) as [->|(m & b & -> & _)].
  - by intros [= <- _].
  - by intros (_ & _ & Hflag & _)%SetMode_Some.
Qed.

Lemma SetMode_Num_mono (z : EInputMode) (d : Detector) (s : Z) (m : EInputMode)
    (b : bool) (d' : Detector) (ns : list Notification) :
  SetMode z d s m b = Some (d', ns) →
  TArray.Num (LastInputModeByPlayer d) <= TArray.Num (LastInputModeByPlayer d') ∧
  TArray.Num (LastButtonPressByPlayer d) <= TArray.Num (LastButtonPressByPlayer d').
Proof.
  intros (Hbtn & Hmain & _)%SetMode_Some. split.
  - destruct (MainChanges d s m); [|rewrite Hmain; lia].
    by apply GrowAndStore_Num in Hmain as [? _].
  - destruct (ButtonChanges d s m b); [|rewrite Hbtn; lia].
    by apply GrowAndStore_Num in Hbtn as [? _].
Qed.

(** A mode-set for one player keeps the answers of both getters for
    every other player inside the arrays. *)
Lemma SetMode_other_player (z : EInputMode) (d : Detector) (s : Z) (m : EInputMode)
    (b : bool) (d' : Detector) (ns : list Notification) (j : Z) :
  SetMode z d s m b = Some (d', ns) → j ≠ s →
  (0 <= j < TArray.Num (LastInputModeByPlayer d) →
   GetLastInputMode d' j = GetLastInputMode d j) ∧
  (0 <= j < TArray.Num (LastButtonPressByPlayer d) →
   GetLastButtonInputMode d' j = GetLastButtonInputMode d j).
Proof.
  intros (Hbtn & Hmain & _)%SetMode_Some Hne. split; intros Hj.
  - rewrite !GetLastInputMode_ReadSlot.
    destruct (MainChanges d s m); [|by rewrite Hmain].
    by eapply GrowAndStore_frame.
  - rewrite !GetLastButtonInputMode_ReadSlot.
    destruct (ButtonChanges d s m b); [|by rewrite Hbtn].
    by eapply GrowAndStore_frame.
Qed.

Lemma Process_main_event (z : EInputMode) (d : Detector) (e : InputEvent)
    (d1 : Detector) (ns1 : list Notification) (i : Z) :
  bIgnoreEvents d = false → Process z d e = Some (d1, ns1) →
  0 <= i < TArray.Num (LastInputModeByPlayer d) →
  GetLastInputMode d1 i = default (GetLastInputMode d i) (MainModeFor i e) ∧
  0 <= i < TArray.Num (LastInputModeByPlayer d1).
Proof.
  intros Hon He Hi. rewrite Process_EventMode, Hon in He.
  unfold MainModeFor.
  destruct (EventMode e) as [[m b]|] eqn:Hem.
  - destruct (SetMode_Num_mono _ _ _ _ _ _ _ He) as [Hmono _].
    split; [|lia]. case_bool_decide as Hji; simpl.
    + subst i. eapply SetMode_main_after; [done|].
      by eapply EventMode_not_Unknown.
    + by apply (SetMode_other_player _ _ _ _ _ _ _ i He).
  - injection He as <- <-. split; [|done]. by case_bool_decide.
Qed.

Lemma Process_button_event (z : EInputMode) (d : Detector) (e : InputEvent)
    (d1 : Detector) (ns1 : list Notification) (i : Z) :
  bIgnoreEvents d = false → Process z d e = Some (d1, ns1) →
  0 <= i < TArray.Num (LastButtonPressByPlayer d) →
  GetLastButtonInputMode d1 i = default (GetLastButtonInputMode d i) (ButtonModeFor i e) ∧
  0 <= i < TArray.Num (LastButtonPressByPlayer d1).
Proof.
  intros Hon He Hi. rewrite Process_EventMode, Hon in He.
  unfold ButtonModeFor.
  destruct (EventMode e) as [[m b]|] eqn:Hem.
  - destruct (SetMode_Num_mono _ _ _ _ _ _ _ He) as [_ Hmono].
    split; [|lia]. case_bool_decide as Hji; simpl.
    + subst i. destruct b; simpl.
      * eapply SetMode_button_after; [done|].
        by eapply EventMode_not_Unknown.
      * destruct (SetMode_Some _ _ _ _ _ _ _ He) as (Hbtn & _).
        simpl in Hbtn. unfold GetLastButtonInputMode. by rewrite Hbtn.
    + by apply (SetMode_other_player _ _ _ _ _ _ _ i He).
  - injection He as <- <-. split; [|done]. by case_bool_decide.
Qed.

Section EventChannel.
Variable z : EInputMode.
Variable get : Detector → Z → EInputMode.
Variable num : Detector → Z.
Variable asks : Z → InputEvent → option EInputMode.
Hypothesis event_step : ∀ d e d1 ns1 i,
  bIgnoreEvents d = false → Process z d e = Some (d1, ns1) → 0 <= i < num d →
  get d1 i = default (get d i) (asks i e) ∧ 0 <= i < num d1.

Lemma Run_channel_last_event (d : Detector) (es : list InputEvent)
    (d' : Detector) (ns : list Notification) (i : Z) :
  bIgnoreEvents d = false → Run z d es = Some (d', ns) → 0 <= i < num d →
  get d' i = default (get d i) (last (omap (asks i) es)).
Proof.
  revert d ns. induction es as [|e es IH]; intros d ns Hon; simpl.
  - by intros [= <- <-] _.
  - destruct (Process z d e) as [[d1 ns1]|] eqn:He; simpl; [|done].
    destruct (Run z d1 es) as [[d2 ns2]|] eqn:Hr; simpl; [|done].
    intros [= <- <-] Hi.
    destruct (event_step d e d1 ns1 i Hon He Hi) as [Hget Hin].
    assert (bIgnoreEvents d1 = false) as Hon1
      by (by rewrite (Process_flag _ _ _ _ _ He)).
    rewrite (IH d1 ns2 Hon1 Hr Hin), Hget.
    destruct (asks i e) as [m|]; simpl; [|done].
    by rewrite default_last_cons.
Qed.
End EventChannel.

(** X3. The last event decides.  With events not ignored, after a
    completed run the main mode of a player whose index was inside the
    main array at the start is the mode asked for by the last event of
    that player that passed its handler's threshold test (for a mouse
    move, the test on the float difference of the two positions), events
    of other players notwithstanding; with no such event it is the mode
    at the start.  The button mode is the one of the last such event that was a
    button event. *)
Theorem last_event_decides_the_mode (z : EInputMode) (d : Detector)
    (es : list InputEvent) (d' : Detector) (ns : list Notification) (i : Z) :
  bIgnoreEvents d = false → Run z d es = Some (d', ns) →
  (0 <= i < TArray.Num (LastInputModeByPlayer d) →
   GetLastInputMode d' i
   = default (GetLastInputMode d i) (last (omap (MainModeFor i) es))) ∧
  (0 <= i < TArray.Num (LastButtonPressByPlayer d) →
   GetLastButtonInputMode d' i
   = default (GetLastButtonInputMode d i) (last (omap (ButtonModeFor i) es))).
Proof.
  intros Hon Hrun. split.
  - apply (Run_channel_last_event z GetLastInputMode
             (λ d, TArray.Num (LastInputModeByPlayer d)) MainModeFor
             (Process_main_event z) d es d' ns i Hon Hrun).
  - apply (Run_channel_last_event z GetLastButtonInputMode
             (λ d, TArray.Num (LastButtonPressByPlayer d)) ButtonModeFor
             (Process_button_event z) d es d' ns i Hon Hrun).
Qed.

Lemma last_event_decides_the_mode_witness :
  (bIgnoreEvents FInputModeDetector = false ∧
   Run Mouse FInputModeDetector
     [KeyDownEvent 1 EKeys.SpaceBar;
      KeyDownEvent 2 EKeys.Gamepad_FaceButton_Bottom;
      AnalogInputEvent 1 (1 # 2);
      AnalogInputEvent 1 (-1 # 2);
      MouseButtonDownEvent 3;
      MouseMoveEvent 1 (mkPos (Float32 9227469 (-23)) (Float32 0 0))
                       (mkPos (Float32 13421773 (-27)) (Float32 0 0))]
   = Some (mkDetector [Mouse; Gamepad; Gamepad; Mouse]
                      [Keyboard; Keyboard; Gamepad; Mouse] false,
           [InputModeChanged 1 Keyboard; ButtonInputModeChanged 2 Gamepad;
            InputModeChanged 2 Gamepad; InputModeChanged 1 Gamepad;
            ButtonInputModeChanged 3 Mouse])) ∧
  (0 <= 1 < TArray.Num (LastInputModeByPlayer FInputModeDetector) →
   GetLastInputMode (mkDetector [Mouse; Gamepad; Gamepad; Mouse]
                       [Keyboard; Keyboard; Gamepad; Mouse] false) 1
   = default (GetLastInputMode FInputModeDetector 1)
       (last (omap (MainModeFor 1)
                [KeyDownEvent 1 EKeys.SpaceBar;
                 KeyDownEvent 2 EKeys.Gamepad_FaceButton_Bottom;
                 AnalogInputEvent 1 (1 # 2);
                 AnalogInputEvent 1 (-1 # 2);
                 MouseButtonDownEvent 3;
                 MouseMoveEvent 1 (mkPos (Float32 9227469 (-23)) (Float32 0 0))
                                  (mkPos (Float32 13421773 (-27)) (Float32 0 0))]))) ∧
  (0 <= 1 < TArray.Num (LastButtonPressByPlayer FInputModeDetector) →
   GetLastButtonInputMode (mkDetector [Mouse; Gamepad; Gamepad; Mouse]
                             [Keyboard; Keyboard; Gamepad; Mouse] false) 1
   = default (GetLastButtonInputMode FInputModeDetector 1)
       (last (omap (ButtonModeFor 1)
                [KeyDownEvent 1 EKeys.SpaceBar;
                 KeyDownEvent 2 EKeys.Gamepad_FaceButton_Bottom;
                 AnalogInputEvent 1 (1 # 2);
                 AnalogInputEvent 1 (-1 # 2);
                 MouseButtonDownEvent 3;
                 MouseMoveEvent 1 (mkPos (Float32 9227469 (-23)) (Float32 0 0))
                                  (mkPos (Float32 13421773 (-27)) (Float32 0 0))]))).
Proof.
  split; [split; reflexivity|].
  apply (last_event_decides_the_mode Mouse FInputModeDetector
           [KeyDownEvent 1 EKeys.SpaceBar;
            KeyDownEvent 2 EKeys.Gamepad_FaceButton_Bottom;
            AnalogInputEvent 1 (1 # 2);
            AnalogInputEvent 1 (-1 # 2);
            MouseButtonDownEvent 3;
            MouseMoveEvent 1 (mkPos (Float32 9227469 (-23)) (Float32 0 0))
                             (mkPos (Float32 13421773 (-27)) (Float32 0 0))]
           (mkDetector [Mouse; Gamepad; Gamepad; Mouse]
                       [Keyboard; Keyboard; Gamepad; Mouse] false)
           [InputModeChanged 1 Keyboard; ButtonInputModeChanged 2 Gamepad;
            InputModeChanged 2 Gamepad; InputModeChanged 1 Gamepad;
            ButtonInputModeChanged 3 Mouse]);
    reflexivity.
Defined.

(** ** What a trace can contain *)

Lemma Process_notifications (z : EInputMode) (d : Detector) (e : InputEvent)
    (d1 : Detector) (ns1 : list Notification) :
  Process z d e = Some (d1, ns1) →
  (length ns1 ≤ 2)%nat ∧
  ∀ n, n ∈ ns1 →
    bIgnoreEvents d = false ∧
    NotificationIndex n = EventUserIndex e ∧
    ∃ b, EventMode e = Some (NotificationMode n, b) ∧
         (IsButtonNotification n = true → b = true).
Proof.
  rewrite Process_EventMode.
  destruct (bIgnoreEvents d) eqn:Hflag.
  { intros [= <- <-]. split; [simpl; lia|]. by intros n ?%elem_of_nil. }
  destruct (EventMode e) as [[m b]|] eqn:Hem.
  2:{ intros [= <- <-]. split; [simpl; lia|]. by intros n ?%elem_of_nil. }
  intros (_ & _ & _ & ->)%SetMode_Some.
  set (j := EventUserIndex e). split.
  - rewrite length_app. destruct (ButtonChanges d j m b), (MainChanges d j m); simpl; lia.
  - intros n [Hn|Hn]%elem_of_app.
    + destruct (ButtonChanges d j m b) eqn:Hc; [|by apply elem_of_nil in Hn].
      apply list_elem_of_singleton in Hn as ->. simpl.
      split; [done|]. split; [done|]. exists b. split; [done|]. intros _.
      unfold ButtonChanges in Hc.
      by apply andb_prop in Hc as [[-> _]%andb_prop _].
    + destruct (MainChanges d j m); [|by apply elem_of_nil in Hn].
      apply list_elem_of_singleton in Hn as ->. simpl.
      split; [done|]. split; [done|]. exists b. by split.
Qed.

(** X4. What a run never announces.  Every notification in the trace of
    a completed run carries the player index of an event of the run and
    the mode that event asked for; a button notification stems from a
    button event; the mode is never [Unknown]; and a run of [n] events
    fires at most [2 n] notifications. *)
Theorem notifications_stem_from_events (z : EInputMode) (d : Detector)
    (es : list InputEvent) (d' : Detector) (ns : list Notification) :
  Run z d es = Some (d', ns) →
  (length ns ≤ 2 * length es)%nat ∧
  ∀ n, n ∈ ns →
    NotificationMode n ≠ Unknown ∧
    ∃ e b, e ∈ es ∧
           EventUserIndex e = NotificationIndex n ∧
           EventMode e = Some (NotificationMode n, b) ∧
           (IsButtonNotification n = true → b = true).
Proof.
  revert d ns. induction es as [|e es IH]; intros d ns; simpl.
  - intros [= <- <-]. split; [done|]. by intros n ?%elem_of_nil.
  - destruct (Process z d e) as [[d1 ns1]|] eqn:He; simpl; [|done].
    destruct (Run z d1 es) as [[d2 ns2]|] eqn:Hr; simpl; [|done].
    intros [= <- <-].
    destruct (Process_notifications _ _ _ _ _ He) as [Hlen1 Hns1].
    destruct (IH d1 ns2 Hr) as [Hlen2 Hns2].
    split; [rewrite length_app; lia|].
    intros n [Hn|Hn]%elem_of_app.
    + destruct (Hns1 n Hn) as (_ & Hidx & b & Hem & Hb).
      split; [by eapply EventMode_not_Unknown|].
      exists e, b. split; [by left|]. by split.
    + destruct (Hns2 n Hn) as (Hu & e' & b & Hin & Hrest).
      split; [done|]. exists e', b. split; [by right|done].
Qed.

Lemma notifications_stem_from_events_witness :
  Run Mouse FInputModeDetector
    [KeyDownEvent 0 EKeys.Gamepad_LeftStick_Up; MouseButtonDownEvent 1]
  = Some (mkDetector [Gamepad; Mouse; Mouse; Mouse]
                     [Keyboard; Mouse; Keyboard; Keyboard] false,
          [InputModeChanged 0 Gamepad; ButtonInputModeChanged 1 Mouse]) ∧
  (length [InputModeChanged 0 Gamepad; ButtonInputModeChanged 1 Mouse]
   ≤ 2 * length [KeyDownEvent 0 EKeys.Gamepad_LeftStick_Up; MouseButtonDownEvent 1])%nat ∧
  ∀ n, n ∈ [InputModeChanged 0 Gamepad; ButtonInputModeChanged 1 Mouse] →
    NotificationMode n ≠ Unknown ∧
    ∃ e b, e ∈ [KeyDownEvent 0 EKeys.Gamepad_LeftStick_Up; MouseButtonDownEvent 1] ∧
           EventUserIndex e = NotificationIndex n ∧
           EventMode e = Some (NotificationMode n, b) ∧
           (IsButtonNotification n = true → b = true).
Proof.
  split; [reflexivity|].
  apply (notifications_stem_from_events Mouse FInputModeDetector
           [KeyDownEvent 0 EKeys.Gamepad_LeftStick_Up; MouseButtonDownEvent 1]
           (mkDetector [Gamepad; Mouse; Mouse; Mouse]
                       [Keyboard; Mouse; Keyboard; Keyboard] false)).
  reflexivity.
Defined.

(** * The foreground timer *)

Lemma CheckForeground_spec (s : Subsystem) (v : option bool) :
  CheckForeground s v
  = (mkSubsystem (default (bIsForeground s) v)
       (if bool_decide (default (bIsForeground s) v ≠ bIsForeground s)
        then SetIgnoreEvents (InputDetector s) (negb (default (bIsForeground s) v))
        else InputDetector s),
     if bool_decide (default (bIsForeground s) v ≠ bIsForeground s)
     then [default (bIsForeground s) v] else []).
Proof.
  unfold CheckForeground. destruct v as [b|]; simpl.
  - case_bool_decide as Hne; [done|].
    rewrite Hne. by destruct s.
  - rewrite bool_decide_false by auto. by destruct s.
Qed.

Lemma CheckForeground_consistent (s : Subsystem) (v : option bool) :
  FocusConsistent s → FocusConsistent (CheckForeground s v).1.
Proof.
  unfold FocusConsistent. rewrite CheckForeground_spec. simpl.
  case_bool_decide as Hne; [done|].
  by rewrite Hne.
Qed.

(** X5. Polling is edge-triggered over time.  After any sequence of
    timer firings the subsystem holds the focus state last observed (the
    one it started with if the viewport never answered); the broadcasts
    alternate, the first differing from the focus state at the start and
    the last being the state now held; the detector's two arrays are
    untouched; and the detector ignores events exactly when the window is
    held to be in the background, provided this was so at the start or
    some broadcast was made. *)
Theorem Polls_track_focus (s : Subsystem) (obs : list (option bool)) :
  bIsForeground (Polls s obs).1
  = default (bIsForeground s) (last (omap id obs)) ∧
  NoAdjacentRepeat (bIsForeground s :: (Polls s obs).2) ∧
  bIsForeground (Polls s obs).1 = default (bIsForeground s) (last (Polls s obs).2) ∧
  LastInputModeByPlayer (InputDetector (Polls s obs).1)
  = LastInputModeByPlayer (InputDetector s) ∧
  LastButtonPressByPlayer (InputDetector (Polls s obs).1)
  = LastButtonPressByPlayer (InputDetector s) ∧
  (FocusConsistent s ∨ (Polls s obs).2 ≠ [] → FocusConsistent (Polls s obs).1).
Proof.
  revert s. induction obs as [|v obs IH]; intros s.
  { simpl. repeat split; try done. by intros [?|?]. }
  cbn [Polls]. cbv zeta.
  destruct (IH (CheckForeground s v).1) as (IH1 & IH2 & IH3 & IH4 & IH5 & IH6).
  set (s1 := (CheckForeground s v).1) in *.
  set (r := Polls s1 obs) in *.
  assert (bIsForeground s1 = default (bIsForeground s) v) as Hfg
    by (unfold s1; by rewrite CheckForeground_spec).
  assert ((CheckForeground s v).2
          = if bool_decide (default (bIsForeground s) v ≠ bIsForeground s)
            then [default (bIsForeground s) v] else []) as Hbs
    by (by rewrite CheckForeground_spec).
  cbn [fst snd]. rewrite Hbs. clear Hbs.
  split; [|split; [|split; [|split; [|split]]]].
  - rewrite IH1, Hfg. destruct v as [b|]; simpl; [|done].
    by rewrite default_last_cons.
  - rewrite Hfg in IH2. case_bool_decide as Hne.
    + cbn [app NoAdjacentRepeat]. split; [by intros Heq|done].
    + rewrite Hne in IH2. by rewrite app_nil_l.
  - rewrite IH3, Hfg. case_bool_decide as Hne.
    + by rewrite <- app_comm_cons, default_last_cons.
    + by rewrite Hne.
  - rewrite IH4. unfold s1. rewrite CheckForeground_spec. simpl.
    by case_bool_decide.
  - rewrite IH5. unfold s1. rewrite CheckForeground_spec. simpl.
    by case_bool_decide.
  - intros Hor. apply IH6.
    case_bool_decide as Hne.
    + left. unfold s1, FocusConsistent. rewrite CheckForeground_spec. simpl.
      by rewrite bool_decide_true.
    + rewrite app_nil_l in Hor. destruct Hor as [Hc|Hnil]; [left|by right].
      by apply CheckForeground_consistent.
Qed.

Lemma Polls_track_focus_witness :
  (FocusConsistent InitialSubsystem ∨
   (Polls InitialSubsystem [Some true; Some false; None; Some false; Some true]).2 ≠ []) ∧
  (Polls InitialSubsystem [Some true; Some false; None; Some false; Some true]).2
  = [false; true] ∧
  FocusConsistent
    (Polls InitialSubsystem [Some true; Some false; None; Some false; Some true]).1.
Proof.
  split; [by left|]. split; [reflexivity|].
  apply (Polls_track_focus InitialSubsystem
           [Some true; Some false; None; Some false; Some true]).
  by left.
Defined.

(** * Timer and input together *)

Lemma Process_ignored (z : EInputMode) (d : Detector) (e : InputEvent) :
  bIgnoreEvents d = true → Process z d e = Some (d, []).
Proof. intros Hoff. by rewrite Process_EventMode, Hoff. Qed.

Lemma SetIgnoreEvents_same (d : Detector) :
  SetIgnoreEvents d (bIgnoreEvents d) = d.
Proof. by destruct d. Qed.

(** The running subsystem, step by step, against the detector that is
    handed only the events arriving in the foreground. *)
Lemma RunSystem_spec (z : EInputMode) (sts : list SystemStep) :
  ∀ (s : Subsystem) (dref : Detector),
    bIgnoreEvents dref = false →
    InputDetector s = SetIgnoreEvents dref (negb (bIsForeground s)) →
    RunSystem z s sts
    = (λ r, (mkSubsystem (FocusAfter (bIsForeground s) sts)
               (SetIgnoreEvents r.1 (negb (FocusAfter (bIsForeground s) sts))),
             r.2, FocusChanges (bIsForeground s) sts))
      <$> Run z dref (ForegroundEvents (bIsForeground s) sts).
Proof.
  induction sts as [|st sts IH]; intros s dref Hon Hdet.
  { simpl. destruct s as [fg d]. simpl in *. by rewrite Hdet. }
  destruct st as [v|e].
  - cbn [RunSystem StepSystem FocusAfter FocusChanges ForegroundEvents].
    cbn [mbind option_bind fst snd].
    assert (bIsForeground (CheckForeground s v).1 = default (bIsForeground s) v) as Hfg
      by (by rewrite CheckForeground_spec).
    assert (InputDetector (CheckForeground s v).1
            = SetIgnoreEvents dref (negb (default (bIsForeground s) v))) as Hdet1.
    { rewrite CheckForeground_spec. simpl. case_bool_decide as Hne.
      - by rewrite Hdet.
      - by rewrite Hne. }
    rewrite <- Hfg in Hdet1.
    rewrite (IH _ dref Hon Hdet1), Hfg.
    rewrite CheckForeground_spec. cbn [snd].
    by destruct (Run z dref _) as [[d' ns]|].
  - cbn [RunSystem StepSystem FocusAfter FocusChanges ForegroundEvents].
    destruct (bIsForeground s) eqn:Hfg.
    + simpl in Hdet. rewrite <- Hon, SetIgnoreEvents_same in Hdet.
      rewrite Hdet. cbn [Run].
      destruct (Process z dref e) as [[d1 ns1]|] eqn:He; [|done].
      cbn [mbind option_bind fst snd].
      assert (bIgnoreEvents d1 = false) as Hon1
        by (by rewrite (Process_flag _ _ _ _ _ He)).
      rewrite (IH (mkSubsystem true d1) d1 Hon1)
        by (simpl; by rewrite <- Hon1, SetIgnoreEvents_same).
      simpl. by destruct (Run z d1 _) as [[d' ns]|].
    + rewrite Process_ignored by (by rewrite Hdet).
      cbn [mbind option_bind fst snd].
      rewrite (IH (mkSubsystem false (InputDetector s)) dref Hon) by done.
      simpl. by destruct (Run z dref _) as [[d' ns]|].
Qed.

(** X6. Input in the background is dropped and nothing else is.  For a
    subsystem whose detector ignores events exactly when the window is
    held to be in the background (as after [Initialize]), any interleaving
    of timer firings and input events ends as follows: the detector's
    modes and the mode notifications are those of the detector processing
    only the events that arrived while the window was held to be in the
    foreground; the focus broadcasts are the observed changes of focus;
    and the flag is again the negation of the focus state held.  The
    interleaving fails only where that run fails. *)
Theorem background_input_is_dropped (z : EInputMode) (s : Subsystem)
    (sts : list SystemStep) :
  FocusConsistent s →
  match Run z (SetIgnoreEvents (InputDetector s) false)
              (ForegroundEvents (bIsForeground s) sts) with
  | Some (d', ns) =>
      RunSystem z s sts
      = Some (mkSubsystem (FocusAfter (bIsForeground s) sts)
                (SetIgnoreEvents d' (negb (FocusAfter (bIsForeground s) sts))),
              ns, FocusChanges (bIsForeground s) sts)
  | None => RunSystem z s sts = None
  end.
Proof.
  intros Hc.
  rewrite (RunSystem_spec z sts s (SetIgnoreEvents (InputDetector s) false)).
  - by destruct (Run z _ _) as [[d' ns]|].
  - done.
  - unfold FocusConsistent in Hc. rewrite <- Hc.
    by destruct (InputDetector s).
Qed.

Lemma background_input_is_dropped_witness :
  FocusConsistent InitialSubsystem ∧
  ForegroundEvents (bIsForeground InitialSubsystem)
    [InputArrives (KeyDownEvent 0 EKeys.Gamepad_FaceButton_Bottom);
     TimerFires (Some false);
     InputArrives (MouseButtonDownEvent 0);
     TimerFires (Some true);
     InputArrives (KeyDownEvent 0 EKeys.SpaceBar)]
  = [KeyDownEvent 0 EKeys.Gamepad_FaceButton_Bottom; KeyDownEvent 0 EKeys.SpaceBar] ∧
  RunSystem Mouse InitialSubsystem
    [InputArrives (KeyDownEvent 0 EKeys.Gamepad_FaceButton_Bottom);
     TimerFires (Some false);
     InputArrives (MouseButtonDownEvent 0);
     TimerFires (Some true);
     InputArrives (KeyDownEvent 0 EKeys.SpaceBar)]
  = Some (mkSubsystem true
            (mkDetector [Keyboard; Mouse; Mouse; Mouse]
                        [Keyboard; Keyboard; Keyboard; Keyboard] false),
          [ButtonInputModeChanged 0 Gamepad; InputModeChanged 0 Gamepad;
           ButtonInputModeChanged 0 Keyboard; InputModeChanged 0 Keyboard],
          [false; true]).
Proof.
  split; [reflexivity|]. split; [reflexivity|].
  apply (background_input_is_dropped Mouse InitialSubsystem
           [InputArrives (KeyDownEvent 0 EKeys.Gamepad_FaceButton_Bottom);
            TimerFires (Some false);
            InputArrives (MouseButtonDownEvent 0);
            TimerFires (Some true);
            InputArrives (KeyDownEvent 0 EKeys.SpaceBar)]).
  reflexivity.
Defined.

(** * Texture render target pools *)

Section PoolFacts.
Context {FName Pool : Type} `{EqDecision FName}.
Variable GetName : Pool → FName.
Implicit Types (pools : list Pool) (Name : FName).

Lemma FindPool_Some Name pools p :
  FindPool GetName Name pools = Some p → p ∈ pools ∧ GetName p = Name.
Proof.
  induction pools as [|q pools IH]; simpl; [done|].
  case_bool_decide as Hq.
  - intros [= <-]. split; [by left|done].
  - intros [Hin Hn]%IH. split; [by right|done].
Qed.

Lemma FindPool_None Name pools :
  FindPool GetName Name pools = None ↔ ∀ p, p ∈ pools → GetName p ≠ Name.
Proof.
  induction pools as [|q pools IH]; simpl.
  - split; [|done]. by intros _ p ?%elem_of_nil.
  - case_bool_decide as Hq.
    + split; [done|]. intros Hall. destruct (Hall q); [by left|done].
    + rewrite IH. split.
      * intros Hall p [->|Hin]%elem_of_cons; [done|by apply Hall].
      * intros Hall p Hin. apply Hall. by right.
Qed.

Lemma FindPool_app Name pools1 pools2 :
  FindPool GetName Name (pools1 ++ pools2)
  = match FindPool GetName Name pools1 with
    | Some p => Some p
    | None => FindPool GetName Name pools2
    end.
Proof.
  induction pools1 as [|q pools1 IH]; simpl; [done|].
  by case_bool_decide.
Qed.

(** The array after a call: the array before, with the new pool at the
    end when one was made. *)
Lemma GetTextureRenderTargetPool_pools pools Name (b : bool) (NewPool : Pool) :
  (GetTextureRenderTargetPool GetName pools Name b NewPool).2
  = match FindPool GetName Name pools with
    | Some _ => pools
    | None => if b then pools ++ [NewPool] else pools
    end.
Proof.
  unfold GetTextureRenderTargetPool.
  destruct (FindPool GetName Name pools); [done|]. by destruct b.
Qed.
End PoolFacts.

(** X7. A pool that was handed out is found again.  If a call for a name
    returns a pool, be it found or just made, every later call for that
    name on the resulting array, with or without auto-create, returns the
    same pool and leaves the array as it is; so a second pool of one name
    is never added. *)
Theorem pool_is_found_again {FName Pool : Type} `{EqDecision FName}
    (GetName : Pool → FName) (pools : list Pool) (Name : FName) (b b' : bool)
    (NewPool NewPool' : Pool) (p : Pool) (pools' : list Pool) :
  GetName NewPool = Name →
  GetTextureRenderTargetPool GetName pools Name b NewPool = (Some p, pools') →
  GetTextureRenderTargetPool GetName pools' Name b' NewPool' = (Some p, pools').
Proof.
  intros Hname. unfold GetTextureRenderTargetPool.
  destruct (FindPool GetName Name pools) as [q|] eqn:Hfind.
  - intros [= <- <-]. by rewrite Hfind.
  - destruct b; [|done]. intros [= <- <-].
    rewrite FindPool_app, Hfind. simpl.
    by rewrite bool_decide_true.
Qed.

Lemma pool_is_found_again_witness :
  (fst (4, 1) = 4 ∧
   GetTextureRenderTargetPool fst [(7, 1); (9, 1)] 4 true (4, 1)
   = (Some (4, 1), [(7, 1); (9, 1); (4, 1)])) ∧
  GetTextureRenderTargetPool fst [(7, 1); (9, 1); (4, 1)] 4 true (4, 2)
  = (Some (4, 1), [(7, 1); (9, 1); (4, 1)]).
Proof.
  split; [split; reflexivity|].
  apply (pool_is_found_again (FName := Z) (Pool := Z * Z) fst
           [(7, 1); (9, 1)] 4 true true (4, 1) (4, 2));
    reflexivity.
Defined.

(** X8. What a call returns.  The pool returned carries the name asked
    for and is in the array afterwards; it is the first pool of that name
    in the array before the call if there is one.  A call returns a null
    pointer exactly when no pool in the array has the name and
    auto-create is off. *)
Theorem pool_returned_has_the_name {FName Pool : Type} `{EqDecision FName}
    (GetName : Pool → FName) (pools : list Pool) (Name : FName) (b : bool)
    (NewPool : Pool) :
  GetName NewPool = Name →
  (∀ p, (GetTextureRenderTargetPool GetName pools Name b NewPool).1 = Some p →
        GetName p = Name ∧
        p ∈ (GetTextureRenderTargetPool GetName pools Name b NewPool).2) ∧
  (∀ before q after,
     pools = before ++ q :: after → GetName q = Name →
     (∀ r, r ∈ before → GetName r ≠ Name) →
     GetTextureRenderTargetPool GetName pools Name b NewPool = (Some q, pools)) ∧
  ((GetTextureRenderTargetPool GetName pools Name b NewPool).1 = None
   ↔ b = false ∧ ∀ q, q ∈ pools → GetName q ≠ Name).
Proof.
  intros Hname. unfold GetTextureRenderTargetPool. split; [|split].
  - intros p. destruct (FindPool GetName Name pools) as [q|] eqn:Hfind.
    + intros [= <-]. apply FindPool_Some in Hfind as [Hin Hn]. by split.
    + destruct b; [|done]. intros [= <-]. split; [done|].
      apply elem_of_app. right. by left.
  - intros before q after -> Hq Hbefore.
    rewrite FindPool_app.
    rewrite (proj2 (FindPool_None GetName Name before) Hbefore).
    simpl. by rewrite bool_decide_true.
  - destruct (FindPool GetName Name pools) as [q|] eqn:Hfind.
    + split; [done|]. intros [_ Hall].
      apply FindPool_Some in Hfind as [Hin Hn]. by destruct (Hall q).
    + rewrite FindPool_None in Hfind. destruct b; simpl.
      * split; [done|]. by intros [? _].
      * by split.
Qed.

Lemma pool_returned_has_the_name_witness :
  fst (9, 2) = 9 ∧
  (∀ p, (GetTextureRenderTargetPool fst [(7, 1); (9, 1); (4, 1)] 9 false (9, 2)).1
        = Some p →
        fst p = 9 ∧
        p ∈ (GetTextureRenderTargetPool fst [(7, 1); (9, 1); (4, 1)] 9 false (9, 2)).2) ∧
  (∀ before q after,
     [(7, 1); (9, 1); (4, 1)] = before ++ q :: after → fst q = 9 →
     (∀ r, r ∈ before → fst r ≠ 9) →
     GetTextureRenderTargetPool fst [(7, 1); (9, 1); (4, 1)] 9 false (9, 2)
     = (Some q, [(7, 1); (9, 1); (4, 1)])) ∧
  ((GetTextureRenderTargetPool fst [(7, 1); (9, 1); (4, 1)] 9 false (9, 2)).1 = None
   ↔ false = false ∧ ∀ q, q ∈ [(7, 1); (9, 1); (4, 1)] → fst q ≠ 9).
Proof.
  split; [reflexivity|].
  by apply (pool_returned_has_the_name (FName := Z) (Pool := Z * Z) fst
              [(7, 1); (9, 1); (4, 1)] 9 false (9, 2)).
Defined.

(** X9. What a call leaves alone.  The pools already in the array stay,
    in their order, and at most one pool is added at the end, none when
    auto-create is off or a pool of the name exists.  If the names in the
    array are pairwise different, they still are afterwards.  A lookup of
    any other name finds the same pool before and after. *)
Theorem pool_call_keeps_the_others {FName Pool : Type} `{EqDecision FName}
    (GetName : Pool → FName) (pools : list Pool) (Name : FName) (b : bool)
    (NewPool : Pool) :
  GetName NewPool = Name →
  ((GetTextureRenderTargetPool GetName pools Name b NewPool).2 = pools ∨
   (b = true ∧ (∀ q, q ∈ pools → GetName q ≠ Name) ∧
    (GetTextureRenderTargetPool GetName pools Name b NewPool).2 = pools ++ [NewPool])) ∧
  (NoDup (GetName <$> pools) →
   NoDup (GetName <$> (GetTextureRenderTargetPool GetName pools Name b NewPool).2)) ∧
  (∀ Other, Other ≠ Name →
     FindPool GetName Other (GetTextureRenderTargetPool GetName pools Name b NewPool).2
     = FindPool GetName Other pools).
Proof.
  intros Hname.
  rewrite GetTextureRenderTargetPool_pools.
  destruct (FindPool GetName Name pools) as [q|] eqn:Hfind.
  { split; [by left|]. by split. }
  destruct b; [|split; [by left|by split]].
  rewrite FindPool_None in Hfind.
  split; [right; by split|]. split.
  - intros Hnd. rewrite fmap_app. apply NoDup_app. split; [done|]. split.
    + intros n Hin Hn. simpl in Hn.
      apply list_elem_of_singleton in Hn. rewrite Hname in Hn. subst n.
      apply list_elem_of_fmap in Hin as (q & Hq & Hin).
      by apply (Hfind q).
    + simpl. apply NoDup_singleton.
  - intros Other Hne. rewrite FindPool_app.
    destruct (FindPool GetName Other pools); [done|]. simpl.
    rewrite bool_decide_false; [done|]. by rewrite Hname.
Qed.

Lemma pool_call_keeps_the_others_witness :
  fst (4, 1) = 4 ∧
  (((GetTextureRenderTargetPool fst [(7, 1); (9, 1)] 4 true (4, 1)).2 = [(7, 1); (9, 1)] ∨
    (true = true ∧ (∀ q, q ∈ [(7, 1); (9, 1)] → fst q ≠ 4) ∧
     (GetTextureRenderTargetPool fst [(7, 1); (9, 1)] 4 true (4, 1)).2
     = [(7, 1); (9, 1)] ++ [(4, 1)])) ∧
   (NoDup (fst <$> [(7, 1); (9, 1)]) →
    NoDup (fst <$> (GetTextureRenderTargetPool fst [(7, 1); (9, 1)] 4 true (4, 1)).2)) ∧
   (∀ Other, Other ≠ 4 →
      FindPool fst Other (GetTextureRenderTargetPool fst [(7, 1); (9, 1)] 4 true (4, 1)).2
      = FindPool fst Other [(7, 1); (9, 1)])).
Proof.
  split; [reflexivity|].
  by apply (pool_call_keeps_the_others (FName := Z) (Pool := Z * Z) fst
              [(7, 1); (9, 1)] 4 true (4, 1)).
Defined.

(** * Brushes *)

(** X10. Setting a brush from an atlas is done once.  After a call the
    brush shows the atlas object.  A call on a brush that already shows
    it changes nothing, whatever [bMatchSize] says: in particular a
    second call with the same atlas is without effect, and does not
    match the size if the first call was told not to.  Without
    [bMatchSize] the size is always kept. *)
Theorem SetBrushFromAtlas_once (Brush : FSlateBrush) (AtlasRegion : FAtlasRegion)
    (bMatchSize bMatchSize' : bool) :
  ResourceObject (SetBrushFromAtlas Brush AtlasRegion bMatchSize)
  = AtlasObject AtlasRegion ∧
  SetBrushFromAtlas (SetBrushFromAtlas Brush AtlasRegion bMatchSize)
    AtlasRegion bMatchSize'
  = SetBrushFromAtlas Brush AtlasRegion bMatchSize ∧
  (ResourceObject Brush = AtlasObject AtlasRegion →
   SetBrushFromAtlas Brush AtlasRegion bMatchSize = Brush) ∧
  (bMatchSize = false →
   ImageSize (SetBrushFromAtlas Brush AtlasRegion bMatchSize) = ImageSize Brush) ∧
  (bMatchSize = true → ResourceObject Brush ≠ AtlasObject AtlasRegion →
   ImageSize (SetBrushFromAtlas Brush AtlasRegion bMatchSize)
   = default (mkVec 0 0) (AtlasSourceDimensions AtlasRegion)).
Proof.
  assert (ResourceObject (SetBrushFromAtlas Brush AtlasRegion bMatchSize)
          = AtlasObject AtlasRegion) as Hres.
  { unfold SetBrushFromAtlas. case_bool_decide as Hne; [|done].
    destruct bMatchSize; [|done].
    by destruct (AtlasSourceDimensions AtlasRegion). }
  split; [done|]. split; [|split; [|split]].
  - unfold SetBrushFromAtlas at 1.
    rewrite bool_decide_false; [done|]. intros Hne. by apply Hne.
  - intros Heq. unfold SetBrushFromAtlas.
    rewrite bool_decide_false; [done|]. intros Hne. by apply Hne.
  - intros ->. unfold SetBrushFromAtlas. by case_bool_decide.
  - intros -> Hne. unfold SetBrushFromAtlas. rewrite bool_decide_true by done.
    by destruct (AtlasSourceDimensions AtlasRegion).
Qed.

Lemma SetBrushFromAtlas_once_witness :
  (false = false ∧
   ResourceObject (mkBrush None (mkVec 32 32)) ≠ AtlasObject (mkAtlasRegion (Some 7) (Some (mkVec 64 16)))) ∧
  SetBrushFromAtlas (mkBrush None (mkVec 32 32))
    (mkAtlasRegion (Some 7) (Some (mkVec 64 16))) false
  = mkBrush (Some 7) (mkVec 32 32) ∧
  SetBrushFromAtlas
    (SetBrushFromAtlas (mkBrush None (mkVec 32 32))
       (mkAtlasRegion (Some 7) (Some (mkVec 64 16))) false)
    (mkAtlasRegion (Some 7) (Some (mkVec 64 16))) true
  = SetBrushFromAtlas (mkBrush None (mkVec 32 32))
      (mkAtlasRegion (Some 7) (Some (mkVec 64 16))) false.
Proof.
  split; [split; [reflexivity|discriminate]|]. split; [reflexivity|].
  apply (SetBrushFromAtlas_once (mkBrush None (mkVec 32 32))
           (mkAtlasRegion (Some 7) (Some (mkVec 64 16))) false true).
Defined.

(** * The relay of notifications *)

(** X11. The relay passes everything on and warns once.  Relaying a
    trace broadcasts every notification of the detector, each through the
    delegate of its kind, in the order fired and with its index and mode;
    the warning about the viewport client is logged at most once in the
    life of the subsystem: when the first main notification arrives, if
    the client is not a Steves viewport client; afterwards the check is
    marked as done. *)
Theorem Relay_passes_on_and_warns_once (VC : option FViewportClient) (c : bool)
    (ns : list Notification) :
  omap BroadcastOf (Relay VC c ns).2 = ns ∧
  (Relay VC c ns).1 = c || existsb IsMainNotification ns ∧
  length (filter (λ a, IsWarning a = true) (Relay VC c ns).2)
  = (if negb c && existsb IsMainNotification ns && negb (IsStevesClient VC)
     then 1 else 0)%nat.
Proof.
  revert c. induction ns as [|n ns IH]; intros c.
  { simpl. split; [done|]. split; [by rewrite orb_false_r|].
    by rewrite andb_false_r. }
  destruct n as [i m|i m].
  - cbn [Relay]. cbv zeta.
    destruct (IH (OnInputDetectorModeChanged VC c i m).1) as (IH1 & IH2 & IH3).
    change (OnInputDetectorModeChanged VC c i m).1 with true in *.
    cbn [fst snd existsb IsMainNotification].
    split; [|split].
    + rewrite omap_app, IH1. unfold OnInputDetectorModeChanged. cbn [snd].
      rewrite !omap_app.
      replace (omap BroadcastOf (if c then [] else
                 match VC with
                 | Some vc => if bIsStevesViewportClient vc then []
                              else [LogViewportClientWarning]
                 | None => [LogViewportClientWarning]
                 end)) with (@nil Notification)
        by (destruct c, VC as [[[] ?]|]; reflexivity).
      replace (omap BroadcastOf
                 match VC with
                 | Some vc =>
                     if bool_decide (m = Gamepad) then
                       SetMouseLocation (FloatToInt (X (ViewportSize vc) - 1)%Q)
                                        (FloatToInt (Y (ViewportSize vc) - 1)%Q)
                       :: (if bIsStevesViewportClient vc
                           then [SetSuppressMouseCursor true] else [])
                     else if bool_decide (m = Mouse) then
                       (if bIsStevesViewportClient vc
                        then [SetSuppressMouseCursor false] else [])
                     else []
                 | None => []
                 end) with (@nil Notification)
        by (destruct VC as [[[] ?]|]; simpl; repeat case_bool_decide; reflexivity).
      done.
    + rewrite IH2. by rewrite orb_true_r.
    + rewrite filter_app, length_app, IH3. simpl negb. rewrite andb_false_l.
      rewrite Nat.add_0_r. rewrite andb_true_r.
      unfold OnInputDetectorModeChanged. cbn [snd].
      destruct c, VC as [[[] ?]|]; simpl; repeat case_bool_decide; reflexivity.
  - cbn [Relay]. cbv zeta.
    destruct (IH c) as (IH1 & IH2 & IH3).
    cbn [fst snd existsb IsMainNotification OnButtonInputDetectorModeChanged app].
    split; [|split].
    + exact (f_equal (cons (ButtonInputModeChanged i m)) IH1).
    + by rewrite IH2.
    + rewrite filter_cons_False by (simpl; discriminate). by rewrite IH3.
Qed.

Lemma last_omap_Some {A B : Type} (f : A → option B) (l : list A) (x : A) (y : B) :
  last l = Some x → f x = Some y → last (omap f l) = Some y.
Proof.
  intros Hl Hf. apply last_Some in Hl as [l' ->].
  rewrite omap_app. simpl. rewrite Hf. by rewrite last_snoc.
Qed.

Lemma Run_notification_index (z : EInputMode) (d : Detector) (es : list InputEvent)
    (d' : Detector) (ns : list Notification) (p : Z) :
  Run z d es = Some (d', ns) →
  Forall (λ e, EventUserIndex e = p) es →
  ∀ n, n ∈ ns → NotificationIndex n = p.
Proof.
  intros Hrun Hes. revert d ns Hrun.
  induction Hes as [|e es He _ IH]; intros d ns; simpl.
  - intros [= <- <-] n. by intros ?%elem_of_nil.
  - destruct (Process z d e) as [[d1 ns1]|] eqn:Hp; simpl; [|done].
    destruct (Run z d1 es) as [[d2 ns2]|] eqn:Hr; simpl; [|done].
    intros [= <- <-] n [Hn|Hn]%elem_of_app.
    + destruct (Process_notifications _ _ _ _ _ Hp) as [_ Hns1].
      destruct (Hns1 n Hn) as (_ & Hidx & _). by rewrite Hidx.
    + by apply (IH d1 ns2).
Qed.

(** With a Steves viewport client, the cursor calls of a relayed trace
    of one player are those of that player's main notifications. *)
Lemma Relay_suppressions (vc : FViewportClient) (c : bool) (ns : list Notification)
    (p : Z) :
  bIsStevesViewportClient vc = true →
  (∀ n, n ∈ ns → NotificationIndex n = p) →
  omap SuppressionOf (Relay (Some vc) c ns).2
  = omap SuppressionForMode (MainModesFor p ns).
Proof.
  intros Hsteves. revert c. induction ns as [|n ns IH]; intros c Hidx; [done|].
  assert (∀ n', n' ∈ ns → NotificationIndex n' = p) as Hidx'
    by (intros n' Hn'; apply Hidx; by right).
  destruct n as [i m|i m].
  - assert (i = p) as -> by (apply (Hidx (InputModeChanged i m)); by left).
    cbn [Relay]. cbv zeta. cbn [snd]. rewrite omap_app, (IH _ Hidx').
    unfold MainModesFor at 2. cbn [omap list_omap MainModeOf].
    rewrite bool_decide_true by done. fold (MainModesFor p ns).
    unfold OnInputDetectorModeChanged, SuppressionForMode. cbn [snd].
    rewrite Hsteves.
    destruct c, m; reflexivity.
  - cbn [Relay]. cbv zeta. cbn [snd OnButtonInputDetectorModeChanged app].
    exact (IH c Hidx').
Qed.

(** X12. The cursor follows the main mode.  Take one player, whose index
    is inside the main array, and a Steves viewport client, whose cursor
    is suppressed if the player's main mode is Gamepad and shown if it is
    Mouse.  After any completed run of events of that player, relayed by
    the subsystem, this is so again: the last cursor call suppressed the
    cursor if the main mode is now Gamepad and showed it if the mode is
    now Mouse. *)
Theorem cursor_follows_main_mode (z : EInputMode) (d : Detector)
    (es : list InputEvent) (d' : Detector) (ns : list Notification) (p : Z)
    (vc : FViewportClient) (c before : bool) :
  Forall (λ e, EventUserIndex e = p) es →
  0 <= p < TArray.Num (LastInputModeByPlayer d) →
  bIsStevesViewportClient vc = true →
  (GetLastInputMode d p = Gamepad → before = true) →
  (GetLastInputMode d p = Mouse → before = false) →
  Run z d es = Some (d', ns) →
  (GetLastInputMode d' p = Gamepad →
   CursorSuppressed before (Relay (Some vc) c ns).2 = true) ∧
  (GetLastInputMode d' p = Mouse →
   CursorSuppressed before (Relay (Some vc) c ns).2 = false).
Proof.
  intros Hes Hp Hsteves Hg Hm Hrun.
  pose proof (Run_notification_index _ _ _ _ _ p Hrun Hes) as Hidx.
  pose proof (Run_channel_sync z GetLastInputMode
                (λ d, TArray.Num (LastInputModeByPlayer d)) MainModesFor
                MainModesFor_app (λ _, eq_refl) (Process_main_step z)
                d es d' ns p Hrun (or_intror Hp)) as Hsync.
  unfold CursorSuppressed. rewrite (Relay_suppressions vc c ns p Hsteves Hidx).
  destruct (last (MainModesFor p ns)) as [m|] eqn:Hlast; simpl in Hsync.
  - rewrite Hsync. split; intros ->.
    + by rewrite (last_omap_Some SuppressionForMode _ Gamepad true Hlast).
    + by rewrite (last_omap_Some SuppressionForMode _ Mouse false Hlast).
  - apply last_None in Hlast. rewrite Hlast. simpl. rewrite Hsync.
    by split.
Qed.

Lemma cursor_follows_main_mode_witness :
  (Forall (λ e, EventUserIndex e = 0)
     [KeyDownEvent 0 EKeys.SpaceBar; AnalogInputEvent 0 (1 # 2)] ∧
   0 <= 0 < TArray.Num (LastInputModeByPlayer FInputModeDetector) ∧
   bIsStevesViewportClient (mkViewportClient true (mkVec 1920 1080)) = true ∧
   (GetLastInputMode FInputModeDetector 0 = Gamepad → false = true) ∧
   (GetLastInputMode FInputModeDetector 0 = Mouse → false = false) ∧
   Run Mouse FInputModeDetector
     [KeyDownEvent 0 EKeys.SpaceBar; AnalogInputEvent 0 (1 # 2)]
   = Some (mkDetector [Gamepad; Mouse; Mouse; Mouse]
                      [Keyboard; Keyboard; Keyboard; Keyboard] false,
           [InputModeChanged 0 Keyboard; InputModeChanged 0 Gamepad])) ∧
  (Relay (Some (mkViewportClient true (mkVec 1920 1080))) false
     [InputModeChanged 0 Keyboard; InputModeChanged 0 Gamepad]).2
  = [BroadcastInputModeChanged 0 Keyboard;
     SetMouseLocation 1919 1079; SetSuppressMouseCursor true;
     BroadcastInputModeChanged 0 Gamepad] ∧
  (GetLastInputMode (mkDetector [Gamepad; Mouse; Mouse; Mouse]
                       [Keyboard; Keyboard; Keyboard; Keyboard] false) 0 = Gamepad →
   CursorSuppressed false
     (Relay (Some (mkViewportClient true (mkVec 1920 1080))) false
        [InputModeChanged 0 Keyboard; InputModeChanged 0 Gamepad]).2 = true) ∧
  (GetLastInputMode (mkDetector [Gamepad; Mouse; Mouse; Mouse]
                       [Keyboard; Keyboard; Keyboard; Keyboard] false) 0 = Mouse →
   CursorSuppressed false
     (Relay (Some (mkViewportClient true (mkVec 1920 1080))) false
        [InputModeChanged 0 Keyboard; InputModeChanged 0 Gamepad]).2 = false).
Proof.
  split.
  { split; [by repeat constructor|]. split; [unfold TArray.Num; simpl; lia|].
    split; [reflexivity|]. split; [discriminate|]. split; reflexivity. }
  split; [reflexivity|].
  apply (cursor_follows_main_mode Mouse FInputModeDetector
           [KeyDownEvent 0 EKeys.SpaceBar; AnalogInputEvent 0 (1 # 2)]
           (mkDetector [Gamepad; Mouse; Mouse; Mouse]
                       [Keyboard; Keyboard; Keyboard; Keyboard] false)
           [InputModeChanged 0 Keyboard; InputModeChanged 0 Gamepad] 0
           (mkViewportClient true (mkVec 1920 1080)) false false).
  - by repeat constructor.
  - unfold TArray.Num; simpl; lia.
  - reflexivity.
  - discriminate.
  - reflexivity.
  - reflexivity.
Defined.

(** * Images for keys *)

(** X13. The image of a key is the sprite of the row named after the
    key, in the table of the key's device class (the controller table for
    a gamepad key, the keyboard and mouse table for any other) of the
    theme in force, which is the theme given or, without one, the default
    theme; with neither there is no image.  So a row put into that table
    under the key's name is what comes back, while rows of other names,
    the other table, the default theme beside a given one and the player
    index have no influence.  A lookup by key binding is this lookup. *)
Theorem key_image_comes_from_its_table (dflt : option UUiTheme) (k : FKey)
    (idx idx' : Z) (kbm xbox : gmap string FKeySprite) (row row' : FKeySprite)
    (other : string) :
  (IsGamepadKey k = true →
   GetInputImageSpriteFromKey dflt k idx
     (Some (mkUiTheme kbm (<[KeyName k := row]> xbox))) = Sprite row ∧
   ∀ kbm', GetInputImageSpriteFromKey dflt k idx (Some (mkUiTheme kbm' xbox))
           = GetInputImageSpriteFromKey dflt k idx (Some (mkUiTheme kbm xbox))) ∧
  (IsGamepadKey k = false →
   GetInputImageSpriteFromKey dflt k idx
     (Some (mkUiTheme (<[KeyName k := row]> kbm) xbox)) = Sprite row ∧
   ∀ xbox', GetInputImageSpriteFromKey dflt k idx (Some (mkUiTheme kbm xbox'))
            = GetInputImageSpriteFromKey dflt k idx (Some (mkUiTheme kbm xbox))) ∧
  (other ≠ KeyName k →
   GetInputImageSpriteFromKey dflt k idx
     (Some (mkUiTheme (<[other := row']> kbm) (<[other := row']> xbox)))
   = GetInputImageSpriteFromKey dflt k idx (Some (mkUiTheme kbm xbox))) ∧
  (kbm !! KeyName k = None → xbox !! KeyName k = None →
   GetInputImageSpriteFromKey dflt k idx (Some (mkUiTheme kbm xbox)) = None) ∧
  GetInputImageSpriteFromKey dflt k idx (Some (mkUiTheme kbm xbox))
  = GetInputImageSpriteFromKey None k idx' (Some (mkUiTheme kbm xbox)) ∧
  GetInputImageSpriteFromKey dflt k idx None
  = GetInputImageSpriteFromKey None k idx' dflt ∧
  GetInputImageSpriteFromKey None k idx None = None ∧
  ∀ actions axes prefa prefx s name pref,
    GetInputImageSprite actions axes prefa prefx dflt s EInputBindingType.Key
      name k pref idx (Some (mkUiTheme kbm xbox))
    = GetInputImageSpriteFromKey dflt k idx (Some (mkUiTheme kbm xbox)).
Proof.
  unfold GetInputImageSpriteFromKey, GetImageSpriteFromTable, GetGamepadImages.
  simpl.
  split; [intros Hg; rewrite Hg; split; [by rewrite lookup_insert_eq|done]|].
  split; [intros Hg; rewrite Hg; split; [by rewrite lookup_insert_eq|done]|].
  split; [intros Hne; by rewrite !lookup_insert_ne|].
  split; [intros -> ->; by destruct (IsGamepadKey k)|].
  split; [done|]. split; [by destruct dflt|]. by split.
Qed.

Lemma key_image_comes_from_its_table_witness :
  (IsGamepadKey EKeys.Gamepad_FaceButton_Bottom = true ∧
   IsGamepadKey EKeys.SpaceBar = false) ∧
  GetInputImageSpriteFromKey None EKeys.Gamepad_FaceButton_Bottom 0
    (Some (mkUiTheme ∅ (<[KeyName EKeys.Gamepad_FaceButton_Bottom :=
                           mkKeySprite (Some 11)]> ∅)))
  = Some 11 ∧
  GetInputImageSpriteFromKey None EKeys.SpaceBar 0
    (Some (mkUiTheme (<[KeyName EKeys.SpaceBar := mkKeySprite (Some 12)]> ∅) ∅))
  = Some 12.
Proof.
  split; [split; reflexivity|]. split.
  - apply (proj1 (key_image_comes_from_its_table None
                    EKeys.Gamepad_FaceButton_Bottom 0 0 ∅ ∅
                    (mkKeySprite (Some 11)) (mkKeySprite None) "")).
    reflexivity.
  - apply (proj1 (proj2 (key_image_comes_from_its_table None
                           EKeys.SpaceBar 0 0 ∅ ∅
                           (mkKeySprite (Some 12)) (mkKeySprite None) ""))).
    reflexivity.
Defined.

(** * What a run costs and what it depends on *)

Lemma Process_Num_bound (z : EInputMode) (d : Detector) (e : InputEvent)
    (d1 : Detector) (ns1 : list Notification) (bound : Z) :
  Process z d e = Some (d1, ns1) → EventUserIndex e < bound →
  (TArray.Num (LastInputModeByPlayer d) <= bound →
   TArray.Num (LastInputModeByPlayer d1) <= bound) ∧
  (TArray.Num (LastButtonPressByPlayer d) <= bound →
   TArray.Num (LastButtonPressByPlayer d1) <= bound).
Proof.
  destruct (Process_cases z d e) as [->|(m & b & -> & _)].
  { by intros [= <- _]. }
  intros (Hbtn & Hmain & _)%SetMode_Some Hlt. split; intros Hle.
  - destruct (MainChanges d (EventUserIndex e) m); [|by rewrite Hmain].
    destruct (GrowAndStore_Some _ _ _ _ _ Hmain) as [H0 _].
    apply GrowAndStore_length in Hmain. unfold TArray.Num in *. lia.
  - destruct (ButtonChanges d (EventUserIndex e) m b); [|by rewrite Hbtn].
    destruct (GrowAndStore_Some _ _ _ _ _ Hbtn) as [H0 _].
    apply GrowAndStore_length in Hbtn. unfold TArray.Num in *. lia.
Qed.

Lemma Process_Num_mono (z : EInputMode) (d : Detector) (e : InputEvent)
    (d1 : Detector) (ns1 : list Notification) :
  Process z d e = Some (d1, ns1) →
  TArray.Num (LastInputModeByPlayer d) <= TArray.Num (LastInputModeByPlayer d1) ∧
  TArray.Num (LastButtonPressByPlayer d) <= TArray.Num (LastButtonPressByPlayer d1).
Proof.
  destruct (Process_cases z d e) as [->|(m & b & -> & _)].
  - intros [= <- _]. lia.
  - apply SetMode_Num_mono.
Qed.

(** X14. What a run never does to the detector.  A completed run leaves
    [bIgnoreEvents] as it was and never shortens an array; the arrays
    stay within any bound that exceeds every player index of the run and
    is not below their length at the start, so they grow only as far as
    the highest player index seen requires. *)
Theorem Run_keeps_flag_and_bounds (z : EInputMode) (d : Detector)
    (es : list InputEvent) (d' : Detector) (ns : list Notification) (bound : Z) :
  Run z d es = Some (d', ns) →
  bIgnoreEvents d' = bIgnoreEvents d ∧
  TArray.Num (LastInputModeByPlayer d) <= TArray.Num (LastInputModeByPlayer d') ∧
  TArray.Num (LastButtonPressByPlayer d) <= TArray.Num (LastButtonPressByPlayer d') ∧
  (Forall (λ e, EventUserIndex e < bound) es →
   (TArray.Num (LastInputModeByPlayer d) <= bound →
    TArray.Num (LastInputModeByPlayer d') <= bound) ∧
   (TArray.Num (LastButtonPressByPlayer d) <= bound →
    TArray.Num (LastButtonPressByPlayer d') <= bound)).
Proof.
  revert d ns. induction es as [|e es IH]; intros d ns; simpl.
  - intros [= <- _]. repeat split; lia || done.
  - destruct (Process z d e) as [[d1 ns1]|] eqn:He; simpl; [|done].
    destruct (Run z d1 es) as [[d2 ns2]|] eqn:Hr; simpl; [|done].
    intros [= <- _].
    destruct (IH d1 ns2 Hr) as (IHf & IHm & IHb & IHbound).
    destruct (Process_Num_mono _ _ _ _ _ He) as [Hm Hb].
    split; [by rewrite IHf, (Process_flag _ _ _ _ _ He)|].
    split; [lia|]. split; [lia|].
    intros Hall. apply Forall_cons in Hall as [Hlt Hall].
    destruct (IHbound Hall) as [IH1 IH2].
    destruct (Process_Num_bound _ _ _ _ _ bound He Hlt) as [H1 H2].
    split; auto.
Qed.

Lemma Run_keeps_flag_and_bounds_witness :
  Run Mouse FInputModeDetector
    [KeyDownEvent 6 EKeys.Gamepad_FaceButton_Bottom; MouseButtonDownEvent 2]
  = Some (mkDetector [Mouse; Mouse; Mouse; Mouse; Mouse; Mouse; Gamepad]
                     [Keyboard; Keyboard; Mouse; Keyboard; Mouse; Mouse; Gamepad]
                     false,
          [ButtonInputModeChanged 6 Gamepad; InputModeChanged 6 Gamepad;
           ButtonInputModeChanged 2 Mouse]) ∧
  Forall (λ e, EventUserIndex e < 7)
    [KeyDownEvent 6 EKeys.Gamepad_FaceButton_Bottom; MouseButtonDownEvent 2] ∧
  TArray.Num (LastInputModeByPlayer FInputModeDetector) <= 7 ∧
  TArray.Num (LastInputModeByPlayer
                (mkDetector [Mouse; Mouse; Mouse; Mouse; Mouse; Mouse; Gamepad]
                   [Keyboard; Keyboard; Mouse; Keyboard; Mouse; Mouse; Gamepad]
                   false)) <= 7.
Proof.
  split; [reflexivity|]. split; [by repeat constructor|].
  split; [unfold TArray.Num; simpl; lia|].
  apply (Run_keeps_flag_and_bounds Mouse FInputModeDetector
           [KeyDownEvent 6 EKeys.Gamepad_FaceButton_Bottom; MouseButtonDownEvent 2]
           (mkDetector [Mouse; Mouse; Mouse; Mouse; Mouse; Mouse; Gamepad]
              [Keyboard; Keyboard; Mouse; Keyboard; Mouse; Mouse; Gamepad] false)
           [ButtonInputModeChanged 6 Gamepad; InputModeChanged 6 Gamepad;
            ButtonInputModeChanged 2 Mouse] 7).
  - reflexivity.
  - by repeat constructor.
  - unfold TArray.Num; simpl; lia.
Defined.

Lemma GrowAndStore_inside (z : EInputMode) (i : Z) (m : EInputMode)
    (a : list EInputMode) :
  i < TArray.Num a → GrowAndStore z i m a = TArray.Set_ i m a.
Proof.
  intros Hlt. unfold GrowAndStore.
  destruct (Z.leb_spec (TArray.Num a) i); [lia|done].
Qed.

Lemma SetMode_inside (z z' : EInputMode) (d : Detector) (i : Z) (m : EInputMode)
    (b : bool) :
  i < TArray.Num (LastInputModeByPlayer d) →
  i < TArray.Num (LastButtonPressByPlayer d) →
  SetMode z d i m b = SetMode z' d i m b.
Proof.
  intros Hm Hb. unfold SetMode.
  rewrite (GrowAndStore_inside z i m (LastButtonPressByPlayer d)) by done.
  rewrite (GrowAndStore_inside z' i m (LastButtonPressByPlayer d)) by done.
  destruct (b && bool_decide (m ≠ Unknown)
            && bool_decide (m ≠ GetLastButtonInputMode d i));
    [destruct (TArray.Set_ i m (LastButtonPressByPlayer d)) as [buttons|]; [|done]|];
    simpl;
    by rewrite (GrowAndStore_inside z i m (LastInputModeByPlayer d)),
      (GrowAndStore_inside z' i m (LastInputModeByPlayer d)) by done.
Qed.

Lemma SetMode_inside_Num (z : EInputMode) (d : Detector) (i : Z) (m : EInputMode)
    (b : bool) (d' : Detector) (ns : list Notification) :
  SetMode z d i m b = Some (d', ns) →
  i < TArray.Num (LastInputModeByPlayer d) →
  i < TArray.Num (LastButtonPressByPlayer d) →
  TArray.Num (LastInputModeByPlayer d') = TArray.Num (LastInputModeByPlayer d) ∧
  TArray.Num (LastButtonPressByPlayer d') = TArray.Num (LastButtonPressByPlayer d).
Proof.
  intros (Hbtn & Hmain & _)%SetMode_Some Hm Hb. split.
  - destruct (MainChanges d i m); [|by rewrite Hmain].
    destruct (GrowAndStore_Some _ _ _ _ _ Hmain) as [H0 _].
    apply GrowAndStore_length in Hmain. unfold TArray.Num in *. lia.
  - destruct (ButtonChanges d i m b); [|by rewrite Hbtn].
    destruct (GrowAndStore_Some _ _ _ _ _ Hbtn) as [H0 _].
    apply GrowAndStore_length in Hbtn. unfold TArray.Num in *. lia.
Qed.

(** X15. The filling of new slots is the only place where the numbering
    of the mode enumeration matters.  If every event of a run is for a
    player index below the length of both arrays, the run does not depend
    on the enumerator that [SetNum] would fill in: it completes or fails,
    ends in the same detector and fires the same notifications for any
    two choices; and the arrays keep their length. *)
Theorem Run_inside_needs_no_filling (z z' : EInputMode) (d : Detector)
    (es : list InputEvent) :
  Forall (λ e, EventUserIndex e < TArray.Num (LastInputModeByPlayer d) ∧
               EventUserIndex e < TArray.Num (LastButtonPressByPlayer d)) es →
  Run z d es = Run z' d es ∧
  ∀ d' ns, Run z d es = Some (d', ns) →
    TArray.Num (LastInputModeByPlayer d') = TArray.Num (LastInputModeByPlayer d) ∧
    TArray.Num (LastButtonPressByPlayer d') = TArray.Num (LastButtonPressByPlayer d).
Proof.
  revert d. induction es as [|e es IH]; intros d Hall; simpl.
  { split; [done|]. by intros d' ns [= <- _]. }
  apply Forall_cons in Hall as [[Hm Hb] Hall].
  assert (Process z d e = Process z' d e) as Heq.
  { rewrite !Process_EventMode. destruct (bIgnoreEvents d); [done|].
    destruct (EventMode e) as [[m b]|]; [|done]. by apply SetMode_inside. }
  rewrite <- Heq.
  destruct (Process z d e) as [[d1 ns1]|] eqn:He; simpl; [|done].
  assert (TArray.Num (LastInputModeByPlayer d1) = TArray.Num (LastInputModeByPlayer d) ∧
          TArray.Num (LastButtonPressByPlayer d1) = TArray.Num (LastButtonPressByPlayer d))
    as [Hm1 Hb1].
  { destruct (Process_cases z d e) as [Hp|(m & b & Hp & _)]; rewrite Hp in He.
    - by injection He as <- _.
    - by eapply SetMode_inside_Num. }
  destruct (IH d1) as [IHeq IHnum].
  { rewrite Hm1, Hb1. done. }
  rewrite <- IHeq. split; [done|].
  intros d' ns.
  destruct (Run z d1 es) as [[d2 ns2]|] eqn:Hr; simpl; [|done].
  intros [= <- _]. destruct (IHnum d2 ns2 eq_refl) as [-> ->]. by split.
Qed.

Lemma Run_inside_needs_no_filling_witness :
  Forall (λ e, EventUserIndex e < TArray.Num (LastInputModeByPlayer FInputModeDetector) ∧
               EventUserIndex e < TArray.Num (LastButtonPressByPlayer FInputModeDetector))
    [KeyDownEvent 3 EKeys.Gamepad_FaceButton_Bottom; MouseButtonDownEvent 0] ∧
  Run Unknown FInputModeDetector
    [KeyDownEvent 3 EKeys.Gamepad_FaceButton_Bottom; MouseButtonDownEvent 0]
  = Run Keyboard FInputModeDetector
      [KeyDownEvent 3 EKeys.Gamepad_FaceButton_Bottom; MouseButtonDownEvent 0].
Proof.
  split; [by repeat constructor|].
  apply (Run_inside_needs_no_filling Unknown Keyboard FInputModeDetector
           [KeyDownEvent 3 EKeys.Gamepad_FaceButton_Bottom; MouseButtonDownEvent 0]).
  by repeat constructor.
Defined.

(** ** Slots created by growth *)

(** A store for another index leaves a slot that was outside the array
    either outside, or filled with the zero enumerator. *)
Lemma GrowAndStore_new_slot (z dflt : EInputMode) (s : Z) (m : EInputMode)
    (a a' : list EInputMode) (j : Z) :
  GrowAndStore z s m a = Some a' →
  j ≠ s → ¬ (0 <= j < TArray.Num a) →
  ReadSlot dflt a' j = dflt ∨ ReadSlot dflt a' j = z.
Proof.
  intros Hg Hne Hout.
  destruct (GrowAndStore_Some _ _ _ _ _ Hg) as [Hs _].
  pose proof (GrowAndStore_length _ _ _ _ _ Hg) as Hlen.
  unfold TArray.Num in Hout.
  destruct (decide (0 <= j < TArray.Num a')) as [Hin|Hout'].
  - right. unfold TArray.Num in Hin.
    apply ReadSlot_lookup; [lia|].
    eapply GrowAndStore_lookup_fill; [done|lia].
  - left. apply ReadSlot_outside. lia.
Qed.

Lemma Process_main_new_slot (z : EInputMode) (d : Detector) (e : InputEvent)
    (d1 : Detector) (ns1 : list Notification) (i : Z) :
  Process z d e = Some (d1, ns1) →
  MainModesFor i ns1 = [] →
  ¬ (0 <= i < TArray.Num (LastInputModeByPlayer d)) →
  GetLastInputMode d1 i = DefaultInputMode ∨ GetLastInputMode d1 i = z.
Proof.
  rewrite !GetLastInputMode_ReadSlot.
  destruct (Process_cases z d e) as [->|(m & b & -> & Hm)].
  { intros [= <- <-] _ Hout. left. apply ReadSlot_outside. lia. }
  set (j := EventUserIndex e). intros Hs Hnil Hout.
  destruct (SetMode_Some _ _ _ _ _ _ _ Hs) as (_ & Hmain & _ & ->).
  destruct (MainChanges d j m) eqn:Hc.
  - rewrite MainModesFor_app in Hnil. apply app_eq_nil in Hnil as [_ Hnil].
    unfold MainModesFor in Hnil. simpl in Hnil.
    case_bool_decide as Hji; [done|].
    eapply GrowAndStore_new_slot; [done| |done]. by intros ->.
  - rewrite Hmain. left. apply ReadSlot_outside. lia.
Qed.

Lemma Process_button_new_slot (z : EInputMode) (d : Detector) (e : InputEvent)
    (d1 : Detector) (ns1 : list Notification) (i : Z) :
  Process z d e = Some (d1, ns1) →
  ButtonModesFor i ns1 = [] →
  ¬ (0 <= i < TArray.Num (LastButtonPressByPlayer d)) →
  GetLastButtonInputMode d1 i = DefaultButtonInputMode ∨
  GetLastButtonInputMode d1 i = z.
Proof.
  rewrite !GetLastButtonInputMode_ReadSlot.
  destruct (Process_cases z d e) as [->|(m & b & -> & Hm)].
  { intros [= <- <-] _ Hout. left. apply ReadSlot_outside. lia. }
  set (j := EventUserIndex e). intros Hs Hnil Hout.
  destruct (SetMode_Some _ _ _ _ _ _ _ Hs) as (Hbtn & _ & _ & ->).
  destruct (ButtonChanges d j m b) eqn:Hc.
  - rewrite ButtonModesFor_app in Hnil. apply app_eq_nil in Hnil as [Hnil _].
    unfold ButtonModesFor in Hnil. simpl in Hnil.
    case_bool_decide as Hji; [done|].
    eapply GrowAndStore_new_slot; [done| |done]. by intros ->.
  - rewrite Hbtn. left. apply ReadSlot_outside. lia.
Qed.

Section NewSlots.
Variable z : EInputMode.
Variable dflt : EInputMode.
Variable get : Detector → Z → EInputMode.
Variable num : Detector → Z.
Variable modes : Z → list Notification → list EInputMode.
Hypothesis modes_app : ∀ i a b, modes i (a ++ b) = modes i a ++ modes i b.
Hypothesis modes_nil : ∀ i, modes i [] = [].
Hypothesis step : ∀ d e d1 ns1 i,
  Process z d e = Some (d1, ns1) →
  num d <= num d1 ∧
  ((modes i ns1 = [] ∧ (0 <= i < num d → get d1 i = get d i)) ∨
   (∃ m, modes i ns1 = [m] ∧ get d1 i = m ∧ 0 <= i < num d1 ∧ m ≠ get d i)).
Hypothesis new_slot : ∀ d e d1 ns1 i,
  Process z d e = Some (d1, ns1) → modes i ns1 = [] → ¬ (0 <= i < num d) →
  get d1 i = dflt ∨ get d1 i = z.
Hypothesis outside : ∀ d i, ¬ (0 <= i < num d) → get d i = dflt.

Lemma Run_channel_new_slot (d : Detector) (es : list InputEvent) (d' : Detector)
    (ns : list Notification) (i : Z) :
  Run z d es = Some (d', ns) → modes i ns = [] → ¬ (0 <= i < num d) →
  get d' i = dflt ∨ get d' i = z.
Proof.
  revert d ns. induction es as [|e es IH]; intros d ns; simpl.
  - intros [= <- <-] _ Hout. left. by apply outside.
  - destruct (Process z d e) as [[d1 ns1]|] eqn:He; simpl; [|done].
    destruct (Run z d1 es) as [[d2 ns2]|] eqn:Hr; simpl; [|done].
    intros [= <- <-]. rewrite modes_app. intros [H1 H2]%app_eq_nil Hout.
    destruct (decide (0 <= i < num d1)) as [Hin|Hout1].
    + pose proof (Run_channel_sync z get num modes modes_app modes_nil step
                    d1 es d2 ns2 i Hr (or_intror Hin)) as Hsync.
      rewrite H2 in Hsync. simpl in Hsync. rewrite Hsync.
      by eapply new_slot.
    + by eapply IH.
Qed.
End NewSlots.

(** X18. Where the getters can change with nothing fired.  After a
    completed run, for a player for whom no main notification was fired
    and whose index was outside the main array at the start, the main
    getter answers its default or the enumerator of value 0; the same
    holds for the button getter, its default and the button
    notifications. *)
Theorem unannounced_slots_read_default_or_zero (z : EInputMode) (d : Detector)
    (es : list InputEvent) (d' : Detector) (ns : list Notification) (i : Z) :
  Run z d es = Some (d', ns) →
  (MainModesFor i ns = [] →
   ¬ (0 <= i < TArray.Num (LastInputModeByPlayer d)) →
   GetLastInputMode d' i = DefaultInputMode ∨ GetLastInputMode d' i = z) ∧
  (ButtonModesFor i ns = [] →
   ¬ (0 <= i < TArray.Num (LastButtonPressByPlayer d)) →
   GetLastButtonInputMode d' i = DefaultButtonInputMode ∨
   GetLastButtonInputMode d' i = z).
Proof.
  intros Hrun. split.
  - apply (Run_channel_new_slot z DefaultInputMode GetLastInputMode
             (λ d, TArray.Num (LastInputModeByPlayer d)) MainModesFor
             MainModesFor_app (λ _, eq_refl) (Process_main_step z)
             (Process_main_new_slot z)
             (λ d i Hout, ReadSlot_outside DefaultInputMode
                            (LastInputModeByPlayer d) i ltac:(lia))
             d es d' ns i Hrun).
  - apply (Run_channel_new_slot z DefaultButtonInputMode GetLastButtonInputMode
             (λ d, TArray.Num (LastButtonPressByPlayer d)) ButtonModesFor
             ButtonModesFor_app (λ _, eq_refl) (Process_button_step z)
             (Process_button_new_slot z)
             (λ d i Hout, ReadSlot_outside DefaultButtonInputMode
                            (LastButtonPressByPlayer d) i ltac:(lia))
             d es d' ns i Hrun).
Qed.

Lemma unannounced_slots_read_default_or_zero_witness :
  Run Mouse FInputModeDetector [KeyDownEvent 10 EKeys.Gamepad_FaceButton_Bottom]
  = Some (mkDetector
            [Mouse; Mouse; Mouse; Mouse;
             Mouse; Mouse; Mouse; Mouse; Mouse; Mouse; Gamepad]
            [Keyboard; Keyboard; Keyboard; Keyboard;
             Mouse; Mouse; Mouse; Mouse; Mouse; Mouse; Gamepad]
            false,
          [ButtonInputModeChanged 10 Gamepad; InputModeChanged 10 Gamepad]) ∧
  MainModesFor 5 [ButtonInputModeChanged 10 Gamepad; InputModeChanged 10 Gamepad] = [] ∧
  ButtonModesFor 5 [ButtonInputModeChanged 10 Gamepad; InputModeChanged 10 Gamepad] = [] ∧
  ¬ (0 <= 5 < TArray.Num (LastInputModeByPlayer FInputModeDetector)) ∧
  ¬ (0 <= 5 < TArray.Num (LastButtonPressByPlayer FInputModeDetector)) ∧
  GetLastButtonInputMode FInputModeDetector 5 = Keyboard ∧
  (GetLastInputMode
     (mkDetector
        [Mouse; Mouse; Mouse; Mouse;
         Mouse; Mouse; Mouse; Mouse; Mouse; Mouse; Gamepad]
        [Keyboard; Keyboard; Keyboard; Keyboard;
         Mouse; Mouse; Mouse; Mouse; Mouse; Mouse; Gamepad]
        false) 5 = DefaultInputMode ∨
   GetLastInputMode
     (mkDetector
        [Mouse; Mouse; Mouse; Mouse;
         Mouse; Mouse; Mouse; Mouse; Mouse; Mouse; Gamepad]
        [Keyboard; Keyboard; Keyboard; Keyboard;
         Mouse; Mouse; Mouse; Mouse; Mouse; Mouse; Gamepad]
        false) 5 = Mouse) ∧
  (GetLastButtonInputMode
     (mkDetector
        [Mouse; Mouse; Mouse; Mouse;
         Mouse; Mouse; Mouse; Mouse; Mouse; Mouse; Gamepad]
        [Keyboard; Keyboard; Keyboard; Keyboard;
         Mouse; Mouse; Mouse; Mouse; Mouse; Mouse; Gamepad]
        false) 5 = DefaultButtonInputMode ∨
   GetLastButtonInputMode
     (mkDetector
        [Mouse; Mouse; Mouse; Mouse;
         Mouse; Mouse; Mouse; Mouse; Mouse; Mouse; Gamepad]
        [Keyboard; Keyboard; Keyboard; Keyboard;
         Mouse; Mouse; Mouse; Mouse; Mouse; Mouse; Gamepad]
        false) 5 = Mouse).
Proof.
  assert (¬ (0 <= 5 < 4)) as Hout by lia.
  split; [reflexivity|]. split; [reflexivity|]. split; [reflexivity|].
  split; [exact Hout|]. split; [exact Hout|]. split; [reflexivity|].
  split.
  - exact (proj1 (unannounced_slots_read_default_or_zero Mouse FInputModeDetector
                    [KeyDownEvent 10 EKeys.Gamepad_FaceButton_Bottom] _ _ 5 eq_refl)
             eq_refl Hout).
  - exact (proj2 (unannounced_slots_read_default_or_zero Mouse FInputModeDetector
                    [KeyDownEvent 10 EKeys.Gamepad_FaceButton_Bottom] _ _ 5 eq_refl)
             eq_refl Hout).
Defined.

(** ** The threshold test of mouse moves *)

(** The float difference of a number with itself is never above the
    threshold, whether the number is finite, infinite or not a number. *)
Lemma float32_sub_diag (x : spec_float) :
  float32_gt (SFabs (float32_sub x x)) MouseMoveThreshold = false.
Proof.
  destruct x as [s|s| |s m e]; simpl.
  - by destruct s.
  - by destruct s.
  - reflexivity.
  - unfold float32_sub, SFsub. rewrite Z.min_id, Z.sub_diag.
    by destruct s.
Qed.

(** X19. The move test is made on the rounded difference.  A mouse-move
    event whose two positions are equal passes no test: for every
    detector, player index and position the handler returns the detector
    as it was and fires nothing.  A move in X from 0.1f to 1.1f, two
    floats whose exact distance is above 1, has the float difference 1
    and is ignored too: after a gamepad button of player 0 on the fresh
    detector it fires nothing and leaves the main mode at Gamepad. *)
Theorem small_moves_are_ignored (z : EInputMode) (d : Detector) (i : Z)
    (p : FScreenPosition) :
  AboveMoveThreshold p p = false ∧
  HandleMouseMoveEvent z d i p p = Some (d, []) ∧
  float32_sub (Float32 9227469 (-23)) (Float32 13421773 (-27)) = MouseMoveThreshold ∧
  AboveMoveThreshold (mkPos (Float32 9227469 (-23)) (Float32 0 0))
                     (mkPos (Float32 13421773 (-27)) (Float32 0 0)) = false ∧
  Run z FInputModeDetector
    [KeyDownEvent 0 EKeys.Gamepad_FaceButton_Bottom;
     MouseMoveEvent 0 (mkPos (Float32 9227469 (-23)) (Float32 0 0))
                      (mkPos (Float32 13421773 (-27)) (Float32 0 0))]
  = Some (mkDetector [Gamepad; Mouse; Mouse; Mouse]
                     [Gamepad; Keyboard; Keyboard; Keyboard] false,
          [ButtonInputModeChanged 0 Gamepad; InputModeChanged 0 Gamepad]).
Proof.
  assert (AboveMoveThreshold p p = false) as Hpp.
  { unfold AboveMoveThreshold, FScreenPosition_sub. simpl.
    by rewrite !float32_sub_diag. }
  split; [done|]. split.
  - unfold HandleMouseMoveEvent. cbv zeta.
    fold (AboveMoveThreshold p p). rewrite Hpp.
    by destruct (ShouldProcessInputEvents d).
  - split; [reflexivity|]. split; reflexivity.
Qed.
